(** * elsa: the command-line glue that freezes, serves and deploys a Flask site

    A shallow embedding of [elsa/_cli.py].  Python values are [None] or a
    [str]; the Flask application, the process-wide [warnings] state and the
    two output streams form one explicit [World] that every method threads.
    Exceptions are results: a raised exception keeps every mutation made
    before it, as in Python. *)

From Stdlib Require Import ZArith Ascii String.
From stdpp Require Import base option numbers strings list gmap.

(** ** Python values *)

Module Py.

(** The values the code handles for URLs, paths, remotes and config
    entries: [None] or a [str]. *)
Inductive pyval : Type :=
| PNone
| PStr (s : string).

#[global] Instance pyval_eq_dec : EqDecision pyval.
Proof. solve_decision. Defined.

(** [bool(v)]: [None] and the empty string are false. *)
Definition truthy (v : pyval) : bool :=
  match v with
  | PNone => false
  | PStr s => negb (String.eqb s "")
  end.

(** [a or b] *)
Definition py_or (a b : pyval) : pyval := if truthy a then a else b.

(** [v is None] *)
Definition is_None (v : pyval) : bool :=
  match v with PNone => true | PStr _ => false end.

Fixpoint endswith_sep (a : string) : bool :=
  match a with
  | EmptyString => false
  | String c EmptyString => Ascii.eqb c "/"%char
  | String _ rest => endswith_sep rest
  end.

Definition startswith_sep (b : string) : bool :=
  match b with
  | String c _ => Ascii.eqb c "/"%char
  | EmptyString => false
  end.

(** [os.path.join(a, b)] on a POSIX system. *)
Definition os_path_join (a b : string) : string :=
  if startswith_sep b then b
  else if String.eqb a "" || endswith_sep a then a +:+ b
  else a +:+ "/" +:+ b.

End Py.
Export Py.

(** ** The warning classes and the exceptions *)

(** [Warning] and the subclasses this program meets: the built-in ones it
    names and the family [flask_frozen] declares under
    [FrozenFlaskWarning]. *)
Inductive category : Type :=
| Warning
| UserWarning
| DeprecationWarning
| FrozenFlaskWarning
| MissingURLGeneratorWarning
| MimetypeMismatchWarning
| NotFoundWarning
| RedirectWarning.

#[global] Instance category_eq_dec : EqDecision category.
Proof. solve_decision. Defined.

(** The direct base class. *)
Definition base_class (c : category) : option category :=
  match c with
  | Warning => None
  | UserWarning | DeprecationWarning | FrozenFlaskWarning => Some Warning
  | MissingURLGeneratorWarning | MimetypeMismatchWarning
  | NotFoundWarning | RedirectWarning => Some FrozenFlaskWarning
  end.

(** The class and its ancestors (the hierarchy is two levels deep). *)
Definition mro (c : category) : list category :=
  c :: match base_class c with
       | None => []
       | Some b => b :: match base_class b with
                        | None => []
                        | Some b' => [b']
                        end
       end.

Definition issubclass (c d : category) : bool := bool_decide (d ∈ mro c).

Inductive deploy_failure : Type :=
| NoFrozenTree
| PushRejected.

#[global] Instance deploy_failure_eq_dec : EqDecision deploy_failure.
Proof. solve_decision. Defined.

Inductive exn : Type :=
| ValueError (msg : string)
| KeyError (key : string)
| UsageError (msg : string)             (* click.UsageError *)
| SystemExit (code : Z)
| WarningRaised (c : category) (text : string)
                                        (* an instance of a Warning class *)
| DeployError (why : deploy_failure)
| OtherError (name msg : string).

#[global] Instance exn_eq_dec : EqDecision exn.
Proof. solve_decision. Defined.

Inductive Result (A : Type) : Type :=
| Ok (a : A)
| Raise (e : exn).
Arguments Ok {A} a.
Arguments Raise {A} e.

(** ** The state of the [warnings] module *)

Inductive action : Type :=
| act_error | act_ignore | act_always | act_default | act_module | act_once.

#[global] Instance action_eq_dec : EqDecision action.
Proof. solve_decision. Defined.

(** An entry of [warnings.filters]:
    [(action, message, category, module, lineno)]; the two patterns are
    regular expressions or [None]. *)
Record wfilter : Type := {
  f_action : action;
  f_message : option string;
  f_category : category;
  f_module : option string;
  f_lineno : Z
}.

#[global] Instance wfilter_eq_dec : EqDecision wfilter.
Proof. solve_decision. Defined.

(** One call of [warnings.warn]: the text, the class, and the module and
    line the warning is attributed to. *)
Record warning : Type := {
  w_text : string;
  w_category : category;
  w_module : string;
  w_lineno : Z
}.

#[global] Instance warning_eq_dec : EqDecision warning.
Proof. solve_decision. Defined.

(** A key of a module's [__warningregistry__]: [(text, category, lineno)]
    under the module it belongs to. *)
Definition regkey : Type := string * string * category * Z.

(** ** What the outside sees *)

Inductive event : Type :=
| Stdout (s : string)                   (* a line printed on sys.stdout *)
| Stderr (s : string)                   (* a line printed on sys.stderr *)
| ShowWarning (w : warning)             (* a warning shown on sys.stderr *)
| UsageShown (msg : string)             (* click's report of a usage error *)
| FreezerFreeze                         (* self.freezer.freeze() is entered *)
| FreezerServe (port : Z)               (* self.freezer.serve(port=port) *)
| AppRun (host : string) (port : Z) (debug : bool)
| CallDeploy (path remote : pyval) (push show_err : bool)
                                        (* deploy_(path, remote=, push=, show_err=) *)
| GitCommit (path : pyval)
| GitPush (remote : pyval)
| PushStderr (diag : string).           (* the push tool's stderr, on sys.stderr *)

#[global] Instance event_eq_dec : EqDecision event.
Proof. solve_decision. Defined.

(** The views this program registers on the application, next to the
    application's own. *)
Inductive view : Type :=
| CnameView
| ShutdownView
| AppView (name : string).

#[global] Instance view_eq_dec : EqDecision view.
Proof. solve_decision. Defined.

Record Response : Type := {
  body : pyval;
  mimetype : string
}.

(** The application object [self.app], the [warnings] module state and the
    chronological record of output and collaborator calls. *)
Record World : Type := {
  app_root_path : string;               (* app.root_path *)
  app_config : gmap string pyval;       (* app.config *)
  app_routes : list (string * view);    (* rule, view function *)
  app_auto_reload : bool;               (* app.jinja_env.auto_reload *)
  filters : list wfilter;               (* warnings.filters *)
  registry : list regkey;               (* the __warningregistry__ dicts *)
  onceregistry : list (string * category);
  log : list event
}.

Definition set_config (f : gmap string pyval → gmap string pyval) (w : World) : World :=
  {| app_root_path := app_root_path w; app_config := f (app_config w);
     app_routes := app_routes w; app_auto_reload := app_auto_reload w;
     filters := filters w; registry := registry w;
     onceregistry := onceregistry w; log := log w |}.

Definition set_routes (f : list (string * view) → list (string * view)) (w : World) : World :=
  {| app_root_path := app_root_path w; app_config := app_config w;
     app_routes := f (app_routes w); app_auto_reload := app_auto_reload w;
     filters := filters w; registry := registry w;
     onceregistry := onceregistry w; log := log w |}.

Definition set_auto_reload (b : bool) (w : World) : World :=
  {| app_root_path := app_root_path w; app_config := app_config w;
     app_routes := app_routes w; app_auto_reload := b;
     filters := filters w; registry := registry w;
     onceregistry := onceregistry w; log := log w |}.

Definition set_filters (f : list wfilter → list wfilter) (w : World) : World :=
  {| app_root_path := app_root_path w; app_config := app_config w;
     app_routes := app_routes w; app_auto_reload := app_auto_reload w;
     filters := f (filters w); registry := registry w;
     onceregistry := onceregistry w; log := log w |}.

Definition set_registry (f : list regkey → list regkey) (w : World) : World :=
  {| app_root_path := app_root_path w; app_config := app_config w;
     app_routes := app_routes w; app_auto_reload := app_auto_reload w;
     filters := filters w; registry := f (registry w);
     onceregistry := onceregistry w; log := log w |}.

Definition set_onceregistry
    (f : list (string * category) → list (string * category)) (w : World) : World :=
  {| app_root_path := app_root_path w; app_config := app_config w;
     app_routes := app_routes w; app_auto_reload := app_auto_reload w;
     filters := filters w; registry := registry w;
     onceregistry := f (onceregistry w); log := log w |}.

Definition set_log (f : list event → list event) (w : World) : World :=
  {| app_root_path := app_root_path w; app_config := app_config w;
     app_routes := app_routes w; app_auto_reload := app_auto_reload w;
     filters := filters w; registry := registry w;
     onceregistry := onceregistry w; log := f (log w) |}.

(** ** Computations that mutate the world and may raise *)

Definition M (A : Type) : Type := World → Result A * World.

#[global] Instance M_ret : MRet M := λ A a w, (Ok a, w).

#[global] Instance M_bind : MBind M := λ A B f m w,
  match m w with
  | (Ok a, w') => f a w'
  | (Raise e, w') => (Raise e, w')
  end.

Definition raise {A : Type} (e : exn) : M A := λ w, (Raise e, w).

Definition modify (f : World → World) : M unit := λ w, (Ok (), f w).

Definition gets {A : Type} (f : World → A) : M A := λ w, (Ok (f w), w).

(** [try: m  except <the exceptions h selects>: ...] *)
Definition try_except {A : Type} (m : M A) (h : exn → option (M A)) : M A := λ w,
  match m w with
  | (Ok a, w') => (Ok a, w')
  | (Raise e, w') =>
      match h e with
      | Some handler => handler w'
      | None => (Raise e, w')
      end
  end.

Definition emit (e : event) : M unit := modify (set_log (λ l, l ++ [e])).

(** [print(s)] and [print(s, file=sys.stderr)] *)
Definition print (s : string) : M unit := emit (Stdout s).
Definition eprint (s : string) : M unit := emit (Stderr s).

(** What a collaborator does when it is called, as far as this program can
    tell: it issues warnings through [warnings.warn], and it returns or
    raises. *)
Inductive script : Type :=
| Done
| Warn (w : warning) (k : script)
| Fail (e : exn).

(** [flask_frozen.Freezer]-like objects: what [Elsa] asks of [self.freezer]. *)
Record Freezer : Type := {
  freezer_freeze : World → script;      (* freezer.freeze() *)
  freezer_serve : Z → World → script    (* freezer.serve(port=port) *)
}.

(** The libraries and the environment the program runs against. *)
Record Env : Type := {
  (** [urllib.parse.urlparse(url).netloc], or the message of the
      [ValueError] that [urlparse] raises on a malformed URL *)
  urlparse_netloc : string → string + string;
  (** [re]: does the pattern match the text *)
  re_match : string → string → bool;
  (** [app.run(host=, port=, debug=)] *)
  app_run : string → Z → bool → World → script;
  (** [ShutdownableFreezer(app)] of [_shutdown]: building the freezer may
      write its defaults into the application config *)
  ShutdownableFreezer : M Freezer;
  (** the rule under which [_shutdown] mounts its endpoint *)
  shutdown_rule : string;
  (** the publisher's view of the file system: is there a frozen tree *)
  tree_valid : pyval → bool;
  (** the push tool: [None] when the push succeeds, its stderr when not *)
  git_push : pyval → option string
}.

(** ** The [warnings] module *)

Section Warnings.
Context (E : Env).

Definition pattern_ok (p : option string) (s : string) : bool :=
  match p with
  | None => true
  | Some r => re_match E r s
  end.

(** The test of the filter search in [warn_explicit]. *)
Definition filter_matches (wn : warning) (f : wfilter) : bool :=
  pattern_ok (f_message f) (w_text wn)
  && issubclass (w_category wn) (f_category f)
  && pattern_ok (f_module f) (w_module wn)
  && (bool_decide (f_lineno f = 0%Z) || bool_decide (w_lineno wn = f_lineno f)).

(** The first matching filter decides; [warnings.defaultaction] otherwise. *)
Definition find_action (wn : warning) (fs : list wfilter) : action :=
  match List.find (filter_matches wn) fs with
  | Some f => f_action f
  | None => act_default
  end.

(** [list.remove]: drops the first equal item (here: when there is one). *)
Fixpoint remove_first (item : wfilter) (fs : list wfilter) : list wfilter :=
  match fs with
  | [] => []
  | f :: rest => if decide (f = item) then rest else f :: remove_first item rest
  end.

(** [_add_filter] with [append=False]: the item moves to the front, and
    [_filters_mutated()] makes every [__warningregistry__] stale. *)
Definition _add_filter (item : wfilter) : M unit :=
  modify (set_filters (λ fs, item :: remove_first item fs));;
  modify (set_registry (λ _, [])).

(** [warnings.filterwarnings(action, category=category)] *)
Definition filterwarnings (a : action) (c : category) : M unit :=
  _add_filter {| f_action := a; f_message := None; f_category := c;
                 f_module := None; f_lineno := 0 |}.

(** [warnings.simplefilter(action)] *)
Definition simplefilter (a : action) : M unit :=
  _add_filter {| f_action := a; f_message := None; f_category := Warning;
                 f_module := None; f_lineno := 0 |}.

Definition showwarning (wn : warning) : M unit := emit (ShowWarning wn).

(** [warnings.warn(text, category)], that is [warn_explicit]. *)
Definition warn (wn : warning) : M unit :=
  let key : regkey := (w_module wn, w_text wn, w_category wn, w_lineno wn) in
  reg ← gets registry;
  if bool_decide (key ∈ reg) then mret ()
  else
    fs ← gets filters;
    match find_action wn fs with
    | act_ignore => mret ()
    | act_error => raise (WarningRaised (w_category wn) (w_text wn))
    | act_once =>
        modify (set_registry (cons key));;
        let oncekey := (w_text wn, w_category wn) in
        seen ← gets onceregistry;
        if bool_decide (oncekey ∈ seen) then mret ()
        else modify (set_onceregistry (cons oncekey));; showwarning wn
    | act_always => showwarning wn
    | act_module =>
        modify (set_registry (cons key));;
        let altkey : regkey := (w_module wn, w_text wn, w_category wn, 0%Z) in
        reg' ← gets registry;
        if bool_decide (altkey ∈ reg') then mret ()
        else modify (set_registry (cons altkey));; showwarning wn
    | act_default =>
        modify (set_registry (cons key));; showwarning wn
    end.

Fixpoint run_script (s : script) : M unit :=
  match s with
  | Done => mret ()
  | Warn wn k => warn wn;; run_script k
  | Fail e => raise e
  end.

(** A call into a collaborator: it is entered, then it behaves as its
    script for the world it finds says. *)
Definition call (ev : event) (behaviour : World → script) : M unit :=
  emit ev;;
  w ← gets id;
  run_script (behaviour w).

End Warnings.

(** ** The publisher *)

Section Deployment.
Context (E : Env).

(** Modelled from the spec: [_deployment.deploy], imported as [deploy_], is
    not among the sources.  The publisher of the spec commits the frozen
    tree and pushes it when [push] is set; it fails when there is no
    valid tree, or when the push fails; [show_err] decides whether the
    push tool's stderr reaches the error stream. *)
Definition deploy_ (path remote : pyval) (push show_err : bool) : M unit :=
  emit (CallDeploy path remote push show_err);;
  if negb (tree_valid E path) then raise (DeployError NoFrozenTree)
  else
    emit (GitCommit path);;
    if push then
      match git_push E remote with
      | None => emit (GitPush remote)
      | Some diag =>
          (if show_err then emit (PushStderr diag) else mret ());;
          raise (DeployError PushRejected)
      end
    else mret ().

End Deployment.

(** ** class Elsa *)

(** An instance: [self.freezer] and [self.base_url]; [self.app] is the
    application held by the world. *)
Record Elsa : Type := {
  self_freezer : Freezer;
  self_base_url : pyval
}.

Definition DEFAULT_PORT : Z := 8003.
Definition DEFAULT_REMOTE : string := "origin".

(** [app.config.get(key)] *)
Definition config_get (key : string) : M pyval :=
  cfg ← gets app_config;
  mret (default PNone (cfg !! key)).

(** [app.config[key] = v] *)
Definition config_set (key : string) (v : pyval) : M unit :=
  modify (set_config (insert key v)).

(** [app.config[key]] *)
Definition config_getitem (key : string) : M pyval :=
  cfg ← gets app_config;
  match cfg !! key with
  | Some v => mret v
  | None => raise (KeyError key)
  end.

Section Elsa.
Context (E : Env).

(** [Elsa(app, freezer=freezer, base_url=base_url)] *)
Definition __init__ (freezer : option Freezer) (base_url : pyval) : M Elsa :=
  freezer ← match freezer with
            | Some given => mret given
            | None => ShutdownableFreezer E
            end;
  mret {| self_freezer := freezer; self_base_url := base_url |}.

(** The view function [cname] that [_inject_cname] declares. *)
Definition cname : M Response :=
  server_name ← config_getitem "SERVER_NAME";
  mret {| body := server_name; mimetype := "application/octet-stream" |}.

Definition _inject_cname : M unit :=
  modify (set_routes (λ rs, rs ++ [("/CNAME", CnameView)])).

(** Modelled from the spec: [_shutdown.inject_shutdown] is not among the
    sources.  It attaches the dedicated shutdown endpoint to the
    application it is given. *)
Definition inject_shutdown : M unit :=
  modify (set_routes (λ rs, rs ++ [(shutdown_rule E, ShutdownView)])).

Definition _inject_shutdown : M unit := inject_shutdown.

(** [urllib.parse.urlparse(v).netloc] for the values [freeze] passes: a
    string here (the call is only reached with a true [base_url]). *)
Definition urlparse_netloc_of (v : pyval) : M pyval :=
  match v with
  | PStr url =>
      match urlparse_netloc E url with
      | inl netloc => mret (PStr netloc)
      | inr msg => raise (ValueError msg)
      end
  | PNone => mret (PStr "")
  end.

Definition freeze (self : Elsa) (path base_url : pyval) : M unit :=
  configured ← config_get "FREEZER_BASE_URL";
  let base_url := py_or (py_or base_url (self_base_url self)) configured in
  if negb (truthy base_url) then raise (ValueError "No base URL provided")
  else
    config_set "FREEZER_BASE_URL" base_url;;
    destination ← config_get "FREEZER_DESTINATION";
    let path := py_or path destination in
    config_set "FREEZER_DESTINATION" path;;
    netloc ← urlparse_netloc_of base_url;
    config_set "SERVER_NAME" netloc;;
    if negb (truthy path) then raise (ValueError "No path provided")
    else
      (* make sure Frozen Flask warnings are treated as errors *)
      filterwarnings act_error FrozenFlaskWarning;;
      print "Generating HTML...";;
      call E FreezerFreeze (freezer_freeze (self_freezer self)).

(** Like [freeze] but exits on exception. *)
Definition freeze_fail_exit (self : Elsa) (path base_url : pyval) : M unit :=
  try_except (freeze self path base_url)
    (λ e, match e with
          | WarningRaised c text =>
              if issubclass c FrozenFlaskWarning
              then Some (eprint ("Error: " +:+ text);; raise (SystemExit 1))
              else None
          | _ => None
          end).

Definition serve (self : Elsa) (port : Z) : M unit :=
  call E (FreezerServe port) (freezer_serve (self_freezer self) port).

(** [deploy(self, *, path=None, remote=None, push=False, show_err=False)];
    a keyword the caller leaves out is [None] here. *)
Definition deploy (self : Elsa) (path remote : pyval)
    (push show_err : option bool) : M unit :=
  let push := default false push in
  let show_err := default false show_err in
  destination ← config_get "FREEZER_DESTINATION";
  let path := py_or path destination in
  let remote := py_or remote (PStr DEFAULT_REMOTE) in
  deploy_ E path remote push show_err.

End Elsa.

(** ** The command line: [Elsa.cli] *)

(** What the user typed after the subcommand; [None] is an option left
    out, to which click gives the declared default. *)
Record serve_opts : Type := {
  so_port : option Z;
  so_cname : option bool
}.

Record freeze_opts : Type := {
  fo_path : option string;
  fo_base_url : option string;
  fo_serve : option bool;
  fo_port : option Z;
  fo_cname : option bool
}.

Record deploy_opts : Type := {
  do_path : option string;
  do_base_url : option string;
  do_remote : option string;
  do_push : option bool;
  do_freeze : option bool;
  do_show_git_push_stderr : bool;       (* is_flag: given or not *)
  do_cname : option bool
}.

Inductive invocation : Type :=
| Serve (o : serve_opts)
| Freeze (o : freeze_opts)
| Deploy (o : deploy_opts).

Section Cli.
Context (E : Env).

(** [_path_option]: [--path], default [os.path.join(app.root_path, '_build')] *)
Definition _path_option (given : option string) : M pyval :=
  root ← gets app_root_path;
  mret (PStr (default (os_path_join root "_build") given)).

(** [--base-url], default [self.base_url] *)
Definition _base_url_option (self : Elsa) (given : option string) : pyval :=
  from_option PStr (self_base_url self) given.

(** [_port_option]: [--port], default [DEFAULT_PORT] *)
Definition _port_option (given : option Z) : Z := default DEFAULT_PORT given.

(** [_cname_option]: [--cname/--no-cname], default [True] *)
Definition _cname_option (given : option bool) : bool := default true given.

Definition deprecation : warning :=
  {| w_text := "Using deploy without explicit --push/--no-push is "
               +:+ "deprecated. Assuming --push for now. In future "
               +:+ "versions of elsa, the deploy command will not push to "
               +:+ "the remote server by default. Use --push explicitly "
               +:+ "to maintain current behavior.";
     w_category := DeprecationWarning;
     w_module := "elsa._cli";
     w_lineno := 195 |}.

(** Run a debug server *)
Definition cli_serve (self : Elsa) (o : serve_opts) : M unit :=
  let port := _port_option (so_port o) in
  let cname := _cname_option (so_cname o) in
  (* Workaround for https://github.com/pallets/flask/issues/1907 *)
  auto_reload ← config_get "TEMPLATES_AUTO_RELOAD";
  (if truthy auto_reload || is_None auto_reload
   then modify (set_auto_reload true) else mret ());;
  _inject_shutdown E;;
  (if cname then _inject_cname else mret ());;
  call E (AppRun "0.0.0.0" port true) (app_run E "0.0.0.0" port true).

(** Build a static site *)
Definition cli_freeze (self : Elsa) (o : freeze_opts) : M unit :=
  path ← _path_option (fo_path o);
  let base_url := _base_url_option self (fo_base_url o) in
  let serve_ := default false (fo_serve o) in
  let port := _port_option (fo_port o) in
  let cname := _cname_option (fo_cname o) in
  (if cname then _inject_cname else mret ());;
  if negb (truthy base_url)
  then raise (UsageError "No base URL provided, use --base-url")
  else
    freeze_fail_exit E self path base_url;;
    if serve_ then serve E self port else mret ().

(** Deploy the site to GitHub pages *)
Definition cli_deploy (self : Elsa) (o : deploy_opts) : M unit :=
  path ← _path_option (do_path o);
  let base_url := _base_url_option self (do_base_url o) in
  let remote := PStr (default DEFAULT_REMOTE (do_remote o)) in
  let freeze_ := default true (do_freeze o) in
  let show_git_push_stderr := do_show_git_push_stderr o in
  let cname := _cname_option (do_cname o) in
  push ← match do_push o with
         | None =>
             simplefilter act_always;;
             warn E deprecation;;
             mret true
         | Some push => mret push
         end;
  (if freeze_ then
     (if cname then _inject_cname else mret ());;
     if negb (truthy base_url)
     then raise (UsageError "No base URL provided, use --base-url")
     else freeze_fail_exit E self path base_url
   else mret ());;
  deploy_ E path remote push show_git_push_stderr.

(** [command()]: click runs the chosen subcommand in standalone mode: a
    usage error is reported and becomes exit status 2, a normal return
    becomes exit status 0, everything else propagates. *)
Definition command (self : Elsa) (argv : invocation) : M unit :=
  try_except
    (match argv with
     | Serve o => cli_serve self o
     | Freeze o => cli_freeze self o
     | Deploy o => cli_deploy self o
     end;;
     raise (SystemExit 0))
    (λ e, match e with
          | UsageError msg => Some (emit (UsageShown msg);; raise (SystemExit 2))
          | _ => None
          end).

(** [cli(app, freezer=freezer, base_url=base_url)] *)
Definition cli (freezer : option Freezer) (base_url : pyval)
    (argv : invocation) : M unit :=
  self ← __init__ E freezer base_url;
  command self argv.

(** The status the process ends with. *)
Definition exit_status {A : Type} (r : Result A) : Z :=
  match r with
  | Ok _ => 0
  | Raise (SystemExit code) => code
  | Raise _ => 1
  end.

End Cli.

(** ** Notions the statements use *)

(** The value of [base_url] after the first statement of [freeze], and the
    value of [path] after its second assignment. *)
Definition resolved_base_url (self : Elsa) (base_url : pyval) (w : World) : pyval :=
  py_or (py_or base_url (self_base_url self))
        (default PNone (app_config w !! "FREEZER_BASE_URL")).

Definition resolved_path (path : pyval) (w : World) : pyval :=
  py_or path (default PNone (app_config w !! "FREEZER_DESTINATION")).

(** The precedence as the specification words it: the explicit argument if
    non-empty, else the instance's value, else the app config. *)
Definition effective_base_url (argument instance configured : pyval) : pyval :=
  if truthy argument then argument
  else if truthy instance then instance
  else configured.

Definition effective_path (argument configured : pyval) : pyval :=
  if truthy argument then argument else configured.

(** The world after [freeze] has written its two settings, and after it
    has written the server name as well. *)
Definition stored (b p : pyval) (w : World) : World :=
  set_config (insert "FREEZER_DESTINATION" p)
    (set_config (insert "FREEZER_BASE_URL" b) w).

Definition configured (b p : pyval) (host : string) (w : World) : World :=
  set_config (insert "SERVER_NAME" (PStr host)) (stored b p w).

(** The filter [freeze] installs. *)
Definition escalation : wfilter :=
  {| f_action := act_error; f_message := None;
     f_category := FrozenFlaskWarning; f_module := None; f_lineno := 0 |}.

(** The world in which [self.freezer.freeze()] starts to run. *)
Definition rendering (b p : pyval) (host : string) (w : World) : World :=
  set_log (λ l, l ++ [FreezerFreeze])
    (set_log (λ l, l ++ [Stdout "Generating HTML..."])
       (set_registry (λ _, [])
          (set_filters (λ fs, escalation :: remove_first escalation fs)
             (configured b p host w)))).

(** The filter [simplefilter('always')] installs, and the world after the
    deploy command has issued its deprecation warning. *)
Definition always_filter : wfilter :=
  {| f_action := act_always; f_message := None;
     f_category := Warning; f_module := None; f_lineno := 0 |}.

Definition deprecated (w : World) : World :=
  set_log (λ l, l ++ [ShowWarning deprecation])
    (set_registry (λ _, [])
       (set_filters (λ fs, always_filter :: remove_first always_filter fs) w)).

Definition with_push (push : bool) (o : deploy_opts) : deploy_opts :=
  {| do_path := do_path o; do_base_url := do_base_url o;
     do_remote := do_remote o; do_push := Some push;
     do_freeze := do_freeze o;
     do_show_git_push_stderr := do_show_git_push_stderr o;
     do_cname := do_cname o |}.

(** A warning of the [FrozenFlaskWarning] family. *)
Definition is_ffw (wn : warning) : bool :=
  issubclass (w_category wn) FrozenFlaskWarning.

(** The warnings a script issues, in order. *)
Fixpoint warnings_of (s : script) : list warning :=
  match s with
  | Done => []
  | Warn wn k => wn :: warnings_of k
  | Fail _ => []
  end.

(** The escalation is in force: its filter is the first one, and no
    registry entry hides a warning of the family. *)
Definition escalated (w : World) : Prop :=
  (∃ rest, filters w = escalation :: rest)
  ∧ ∀ m t c l, (m, t, c, l) ∈ registry w → issubclass c FrozenFlaskWarning = false.

(** Events only the publisher produces. *)
Definition publisher_event (ev : event) : bool :=
  match ev with
  | CallDeploy _ _ _ _ | GitCommit _ | GitPush _ | PushStderr _ => true
  | _ => false
  end.

(** [m] keeps the invariant [I], and every event it adds satisfies [P]. *)
Definition hoare {A : Type} (I : World → Prop) (P : event → Prop) (m : M A) : Prop :=
  ∀ w, I w →
    I (snd (m w)) ∧ ∀ ev, ev ∈ log (snd (m w)) → ev ∈ log w ∨ P ev.

(** An invariant that looks at the application's routes only. *)
Definition routes_only (I : World → Prop) : Prop :=
  ∀ w w', app_routes w' = app_routes w → I w → I w'.

(** ** A small installation, for the examples *)

Module Demo.

Fixpoint until_slash (s : string) : string :=
  match s with
  | EmptyString => EmptyString
  | String c rest => if Ascii.eqb c "/"%char then EmptyString
                     else String c (until_slash rest)
  end.

Fixpoint after_slashes (s : string) : option string :=
  match s with
  | EmptyString => None
  | String c rest =>
      match rest with
      | String d rest' =>
          if Ascii.eqb c "/"%char && Ascii.eqb d "/"%char then Some rest'
          else after_slashes rest
      | EmptyString => None
      end
  end.

(** A plain reading of the netloc: what stands between the first double
    slash and the next slash. *)
Definition netloc (url : string) : string + string :=
  match after_slashes url with
  | Some rest => inl (until_slash rest)
  | None => inl EmptyString
  end.

Definition not_found : warning :=
  {| w_text := "Nothing frozen for endpoints missing";
     w_category := NotFoundWarning;
     w_module := "flask_frozen";
     w_lineno := 100 |}.

(** A freezer whose rendering meets an inconsistency. *)
Definition broken : Freezer :=
  {| freezer_freeze := λ _, Warn not_found Done;
     freezer_serve := λ _ _, Done |}.

Definition sound : Freezer :=
  {| freezer_freeze := λ _, Done;
     freezer_serve := λ _ _, Done |}.

Definition env : Env :=
  {| urlparse_netloc := netloc;
     re_match := String.eqb;
     app_run := λ _ _ _ _, Done;
     ShutdownableFreezer := mret sound;
     shutdown_rule := "/__shutdown__";
     tree_valid := λ p, truthy p;
     git_push := λ _, Some "fatal: Authentication failed" |}.

Definition elsa : Elsa := {| self_freezer := broken; self_base_url := PNone |}.

Definition world : World :=
  {| app_root_path := "/srv/site";
     app_config := ∅;
     app_routes := [("/", AppView "index")];
     app_auto_reload := false;
     filters := [];
     registry := [];
     onceregistry := [];
     log := [] |}.

Definition url : string := "https://example.com/".

End Demo.

(** ** The help texts and further notions *)

(** [str(v)], as [str.format] renders a value. *)
Definition py_str (v : pyval) : string :=
  match v with
  | PNone => "None"
  | PStr s => s
  end.

Definition _base_url_help (self : Elsa) (freeze : bool) : string :=
  let freeze := if freeze then " with --freeze" else "" in
  let url := self_base_url self in
  let default := if truthy url then "default " +:+ py_str url
                 else "mandatory" +:+ freeze in
  "URL for the application, used for external links, " +:+ default.

(** The world after a command has mounted the CNAME route, when it was
    asked to. *)
Definition cname_injected (cname : bool) (w : World) : World :=
  if cname then set_routes (λ rs, rs ++ [("/CNAME", CnameView)]) w else w.

(** The value of [path] in a command: what [--path] gave, or the default. *)
Definition cli_path (given : option string) (w : World) : pyval :=
  PStr (default (os_path_join (app_root_path w) "_build") given).

(** The world in which the deploy command starts to freeze. *)
Definition deploy_start (o : deploy_opts) (w : World) : World :=
  cname_injected (_cname_option (do_cname o))
    (match do_push o with
     | None => deprecated w
     | Some _ => w
     end).

(** Further installations for the examples. *)
Module Scenario.

(** An environment whose [urlparse] rejects one malformed URL. *)
Definition strict : Env :=
  {| urlparse_netloc := λ url, if String.eqb url "http://[" then inr "Invalid IPv6 URL"
                               else Demo.netloc url;
     re_match := String.eqb;
     app_run := λ _ _ _ _, Done;
     ShutdownableFreezer := mret Demo.sound;
     shutdown_rule := "/__shutdown__";
     tree_valid := λ p, truthy p;
     git_push := λ _, None |}.

Definition quiet : Elsa := {| self_freezer := Demo.sound; self_base_url := PNone |}.


Definition freeze_line : freeze_opts :=
  {| fo_path := None; fo_base_url := Some Demo.url; fo_serve := None;
     fo_port := None; fo_cname := None |}.

Definition deploy_line : deploy_opts :=
  {| do_path := None; do_base_url := Some Demo.url; do_remote := None;
     do_push := Some true; do_freeze := None;
     do_show_git_push_stderr := false; do_cname := None |}.

End Scenario.

(** * Running a computation, one statement at a time *)

Lemma run_bind {A B : Type} (m : M A) (f : A → M B) (w : World) :
  (m ≫= f) w = match m w with
               | (Ok a, w') => f a w'
               | (Raise e, w') => (Raise e, w')
               end.
Proof. reflexivity. Qed.

Lemma run_ret {A : Type} (a : A) (w : World) : (mret a : M A) w = (Ok a, w).
Proof. reflexivity. Qed.

Lemma run_raise {A : Type} (e : exn) (w : World) : (raise e : M A) w = (Raise e, w).
Proof. reflexivity. Qed.

Lemma run_modify (f : World → World) (w : World) : modify f w = (Ok (), f w).
Proof. reflexivity. Qed.

Lemma run_gets {A : Type} (f : World → A) (w : World) : gets f w = (Ok (f w), w).
Proof. reflexivity. Qed.

Lemma run_emit (e : event) (w : World) :
  emit e w = (Ok (), set_log (λ l, l ++ [e]) w).
Proof. reflexivity. Qed.

Lemma run_config_get (key : string) (w : World) :
  config_get key w = (Ok (default PNone (app_config w !! key)), w).
Proof. reflexivity. Qed.

Lemma run_config_set (key : string) (v : pyval) (w : World) :
  config_set key v w = (Ok (), set_config (insert key v) w).
Proof. reflexivity. Qed.

Ltac step :=
  repeat (first
    [ rewrite run_bind | rewrite run_ret | rewrite run_raise
    | rewrite run_modify | rewrite run_gets | rewrite run_emit
    | rewrite run_config_get | rewrite run_config_set ];
    cbv beta iota).

(** * Truth values *)

Lemma py_or_false (a b : pyval) : truthy a = false → py_or a b = b.
Proof. unfold py_or. by intros ->. Qed.

Lemma py_or_true (a b : pyval) : truthy a = true → py_or a b = a.
Proof. unfold py_or. by intros ->. Qed.

Lemma truthy_py_or (a b : pyval) : truthy (py_or a b) = truthy a || truthy b.
Proof. unfold py_or. by destruct (truthy a) eqn:Ha. Qed.

Lemma truthy_PStr (v : pyval) : truthy v = true → ∃ s, v = PStr s ∧ s ≠ "".
Proof.
  destruct v as [|s]; [done|]. simpl. intros H. exists s. split; [done|].
  intros ->. done.
Qed.

Lemma truthy_str (s : string) : s ≠ "" → truthy (PStr s) = true.
Proof.
  intros Hne. simpl. destruct (String.eqb_spec s ""); [contradiction|done].
Qed.

Lemma resolved_is_effective (self : Elsa) (base_url : pyval) (w : World) :
  resolved_base_url self base_url w
  = effective_base_url base_url (self_base_url self)
      (default PNone (app_config w !! "FREEZER_BASE_URL")).
Proof.
  unfold resolved_base_url, effective_base_url, py_or.
  destruct (truthy base_url) eqn:Ha; [by rewrite Ha|reflexivity].
Qed.

(** * The four ways through [freeze] *)

Section FreezeCases.
Context (E : Env).

Lemma stored_destination (b : pyval) (w : World) :
  app_config (set_config (insert "FREEZER_BASE_URL" b) w) !! "FREEZER_DESTINATION"
  = app_config w !! "FREEZER_DESTINATION".
Proof. simpl. by rewrite lookup_insert_ne. Qed.

Lemma freeze_no_base_url self path base_url w :
  truthy (resolved_base_url self base_url w) = false →
  freeze E self path base_url w = (Raise (ValueError "No base URL provided"), w).
Proof.
  unfold resolved_base_url, freeze. intros H. step. rewrite H. reflexivity.
Qed.

Lemma freeze_bad_url self path base_url w url msg :
  resolved_base_url self base_url w = PStr url → url ≠ "" →
  urlparse_netloc E url = inr msg →
  freeze E self path base_url w
  = (Raise (ValueError msg), stored (PStr url) (resolved_path path w) w).
Proof.
  unfold resolved_base_url, resolved_path, freeze. intros Hb Hne Hp.
  step. rewrite Hb, (truthy_str _ Hne). cbv beta iota delta [negb].
  step. rewrite stored_destination. unfold urlparse_netloc_of.
  rewrite Hp. step. reflexivity.
Qed.

Lemma freeze_no_path self path base_url w url host :
  resolved_base_url self base_url w = PStr url → url ≠ "" →
  urlparse_netloc E url = inl host →
  truthy (resolved_path path w) = false →
  freeze E self path base_url w
  = (Raise (ValueError "No path provided"),
     configured (PStr url) (resolved_path path w) host w).
Proof.
  unfold resolved_base_url, resolved_path, freeze. intros Hb Hne Hp Hpath.
  step. rewrite Hb, (truthy_str _ Hne). cbv beta iota delta [negb].
  step. rewrite stored_destination. unfold urlparse_netloc_of.
  rewrite Hp. step. rewrite Hpath. reflexivity.
Qed.

Lemma freeze_renders self path base_url w url host :
  resolved_base_url self base_url w = PStr url → url ≠ "" →
  urlparse_netloc E url = inl host →
  truthy (resolved_path path w) = true →
  freeze E self path base_url w
  = run_script E
      (freezer_freeze (self_freezer self)
         (rendering (PStr url) (resolved_path path w) host w))
      (rendering (PStr url) (resolved_path path w) host w).
Proof.
  unfold resolved_base_url, resolved_path, freeze. intros Hb Hne Hp Hpath.
  step. rewrite Hb, (truthy_str _ Hne). cbv beta iota delta [negb].
  step. rewrite stored_destination. unfold urlparse_netloc_of.
  rewrite Hp. step. rewrite Hpath. cbv beta iota delta [negb].
  unfold filterwarnings, _add_filter, print, call. step. reflexivity.
Qed.

End FreezeCases.

(** * Missing configuration *)

(** C1: when the resolved base URL is empty, or the resolved destination
    path is empty, [freeze] raises the configuration error ([ValueError])
    and the renderer is never entered: nothing is printed, no collaborator
    is called and the warning filters are as they were. *)
Theorem freeze_missing_configuration_fails_fast
    (E : Env) (self : Elsa) (path base_url : pyval) (w : World) :
  truthy (resolved_base_url self base_url w) = false
  ∨ truthy (resolved_path path w) = false →
  ∃ msg w', freeze E self path base_url w = (Raise (ValueError msg), w')
            ∧ log w' = log w ∧ filters w' = filters w.
Proof.
  intros H.
  destruct (truthy (resolved_base_url self base_url w)) eqn:Hb.
  - destruct H as [H|Hpath]; [done|].
    destruct (truthy_PStr _ Hb) as (url & Hurl & Hne).
    destruct (urlparse_netloc E url) as [host|msg] eqn:Hparse.
    + eexists _, _. split; [by apply freeze_no_path|done].
    + eexists _, _. split; [by eapply freeze_bad_url|done].
  - eexists _, _. split; [by apply freeze_no_base_url|done].
Qed.

Lemma freeze_missing_configuration_fails_fast_witness :
  ∃ msg w', freeze Demo.env Demo.elsa (PStr "_build") PNone Demo.world
            = (Raise (ValueError msg), w')
            ∧ log w' = log Demo.world ∧ filters w' = filters Demo.world.
Proof.
  apply (freeze_missing_configuration_fails_fast
           Demo.env Demo.elsa (PStr "_build") PNone Demo.world).
  left. reflexivity.
Defined.

(** C9: with a non-empty resolved base URL that [urlparse] accepts and an
    empty resolved path, [freeze] raises the path error in a world whose
    application config already holds the three settings; nothing else has
    changed. *)
Theorem freeze_missing_path_leaves_config
    (E : Env) (self : Elsa) (path base_url : pyval) (w : World)
    (url host : string) :
  resolved_base_url self base_url w = PStr url → url ≠ "" →
  urlparse_netloc E url = inl host →
  truthy (resolved_path path w) = false →
  ∃ w', freeze E self path base_url w = (Raise (ValueError "No path provided"), w')
        ∧ app_config w'
          = <["SERVER_NAME" := PStr host]>
              (<["FREEZER_DESTINATION" := resolved_path path w]>
                 (<["FREEZER_BASE_URL" := PStr url]> (app_config w)))
        ∧ app_config w' !! "FREEZER_BASE_URL" = Some (PStr url)
        ∧ app_config w' !! "FREEZER_DESTINATION" = Some (resolved_path path w)
        ∧ app_config w' !! "SERVER_NAME" = Some (PStr host)
        ∧ app_routes w' = app_routes w ∧ filters w' = filters w
        ∧ log w' = log w.
Proof.
  intros Hb Hne Hparse Hpath. eexists. split; [by apply freeze_no_path|].
  split; [reflexivity|]. simpl.
  rewrite lookup_insert_eq. rewrite !lookup_insert_ne by done.
  rewrite !lookup_insert_eq.
  rewrite lookup_insert_ne by done. rewrite lookup_insert_eq. done.
Qed.

Lemma freeze_missing_path_leaves_config_witness :
  ∃ w', freeze Demo.env Demo.elsa PNone (PStr Demo.url) Demo.world
        = (Raise (ValueError "No path provided"), w')
        ∧ app_config w'
          = <["SERVER_NAME" := PStr "example.com"]>
              (<["FREEZER_DESTINATION" := resolved_path PNone Demo.world]>
                 (<["FREEZER_BASE_URL" := PStr Demo.url]> (app_config Demo.world)))
        ∧ app_config w' !! "FREEZER_BASE_URL" = Some (PStr Demo.url)
        ∧ app_config w' !! "FREEZER_DESTINATION" = Some (resolved_path PNone Demo.world)
        ∧ app_config w' !! "SERVER_NAME" = Some (PStr "example.com")
        ∧ app_routes w' = app_routes Demo.world ∧ filters w' = filters Demo.world
        ∧ log w' = log Demo.world.
Proof.
  apply (freeze_missing_path_leaves_config
           Demo.env Demo.elsa PNone (PStr Demo.url) Demo.world
           Demo.url "example.com").
  - reflexivity.
  - discriminate.
  - reflexivity.
  - reflexivity.
Defined.

(** * Warnings under the escalation *)

Section Scripts.
Context (E : Env).

Lemma escalation_matches (wn : warning) :
  is_ffw wn = true → filter_matches E wn escalation = true.
Proof. unfold filter_matches, is_ffw. simpl. by intros ->. Qed.

(** A warning of the family is raised, and nothing else happens. *)
Lemma warn_escalated_raises (wn : warning) (w : World) :
  escalated w → is_ffw wn = true →
  warn E wn w = (Raise (WarningRaised (w_category wn) (w_text wn)), w).
Proof.
  intros [[rest Hf] Hreg] Hffw. unfold warn. step.
  rewrite bool_decide_eq_false_2.
  2:{ intros Hin. apply Hreg in Hin. unfold is_ffw in Hffw. congruence. }
  step. rewrite Hf. unfold find_action. simpl.
  rewrite (escalation_matches _ Hffw). reflexivity.
Qed.

Ltac warn_cases wn w :=
  unfold warn; step; case_bool_decide; step;
  [| destruct (find_action E wn (filters w)); step;
     try (case_bool_decide; step) ].

(** Any other warning leaves the escalation in force. *)
Lemma warn_keeps_escalated (wn : warning) (w : World) :
  escalated w → is_ffw wn = false → escalated (snd (warn E wn w)).
Proof.
  intros [Hf Hreg] Hffw. unfold is_ffw in Hffw.
  assert (Hcons : ∀ l (reg : list regkey),
    (∀ m t c l', (m, t, c, l') ∈ reg → issubclass c FrozenFlaskWarning = false) →
    ∀ m t c l', (m, t, c, l') ∈ (w_module wn, w_text wn, w_category wn, l) :: reg →
                issubclass c FrozenFlaskWarning = false).
  { intros l reg Hr m t c l' Hin. apply elem_of_cons in Hin as [Heq|Hin].
    - by injection Heq as -> -> -> ->.
    - by eapply Hr. }
  warn_cases wn w; simpl; (split; [exact Hf|]); simpl; eauto.
Qed.

(** [warn] touches the registries and the log only, and what it logs is
    the warning it shows. *)
Lemma warn_frame (wn : warning) (w : World) :
  app_config (snd (warn E wn w)) = app_config w
  ∧ app_routes (snd (warn E wn w)) = app_routes w
  ∧ filters (snd (warn E wn w)) = filters w
  ∧ (log (snd (warn E wn w)) = log w
     ∨ (log (snd (warn E wn w)) = log w ++ [ShowWarning wn]
        ∧ fst (warn E wn w) = Ok ())).
Proof.
  warn_cases wn w; simpl; auto 10.
Qed.

Lemma run_script_frame (s : script) (w : World) :
  app_config (snd (run_script E s w)) = app_config w
  ∧ app_routes (snd (run_script E s w)) = app_routes w
  ∧ filters (snd (run_script E s w)) = filters w.
Proof.
  revert w. induction s as [|wn k IH|e]; intros w; simpl; [done| |done].
  rewrite run_bind.
  destruct (warn_frame wn w) as (Hc & Hr & Hf & _).
  destruct (warn E wn w) as [[[]|e] w1]; simpl in *; [|done].
  destruct (IH w1) as (Hc' & Hr' & Hf'). by rewrite Hc', Hr', Hf'.
Qed.

(** Under the escalation a script that returns has issued no warning of
    the family. *)
Lemma run_script_escalated_ok (s : script) (w : World) :
  escalated w → fst (run_script E s w) = Ok () →
  Forall (λ wn, is_ffw wn = false) (warnings_of s).
Proof.
  revert w. induction s as [|wn k IH|e]; intros w Hesc; simpl; [done| |done].
  rewrite run_bind. destruct (is_ffw wn) eqn:Hffw.
  - rewrite (warn_escalated_raises _ _ Hesc Hffw). done.
  - pose proof (warn_keeps_escalated _ _ Hesc Hffw) as Hesc'.
    destruct (warn E wn w) as [[[]|e] w1]; simpl in *; [|done].
    intros Hok. constructor; [done|]. by eapply IH.
Qed.

(** The first warning of the family ends the script: it is raised as an
    exception, in the world the warnings before it have left. *)
Lemma run_script_first_ffw (pre : list warning) (wn : warning) (k : script) (w : World) :
  escalated w →
  Forall (λ x, is_ffw x = false) pre →
  is_ffw wn = true →
  fst (run_script E (foldr Warn Done pre) w) = Ok () →
  run_script E (foldr Warn (Warn wn k) pre) w
  = (Raise (WarningRaised (w_category wn) (w_text wn)),
     snd (run_script E (foldr Warn Done pre) w)).
Proof.
  intros Hesc Hpre Hffw. revert w Hesc.
  induction Hpre as [|x pre Hx Hpre IH]; intros w Hesc; simpl.
  - intros _. rewrite run_bind, (warn_escalated_raises _ _ Hesc Hffw). done.
  - rewrite !run_bind.
    pose proof (warn_keeps_escalated _ _ Hesc Hx) as Hesc'.
    destruct (warn E x w) as [[[]|e] w1]; simpl in *; [|done].
    by apply IH.
Qed.

(** Under the escalation no warning of the family is merely shown. *)
Lemma run_script_shows_no_ffw (s : script) (w : World) (wn : warning) :
  escalated w → is_ffw wn = true →
  ShowWarning wn ∈ log (snd (run_script E s w)) → ShowWarning wn ∈ log w.
Proof.
  revert w. induction s as [|x k IH|e]; intros w Hesc Hffw; simpl; [done| |done].
  rewrite run_bind. destruct (is_ffw x) eqn:Hx.
  - rewrite (warn_escalated_raises _ _ Hesc Hx). done.
  - pose proof (warn_keeps_escalated _ _ Hesc Hx) as Hesc'.
    destruct (warn_frame x w) as (_ & _ & _ & Hlog).
    assert (Hold : ShowWarning wn ∈ log (snd (warn E x w)) → ShowWarning wn ∈ log w).
    { destruct Hlog as [->|[-> _]]; [done|].
      rewrite elem_of_app, list_elem_of_singleton. intros [?|Heq]; [done|].
      injection Heq as ->. congruence. }
    destruct (warn E x w) as [[[]|e] w1]; simpl in *; [|done].
    intros Hin. apply Hold. by eapply IH.
Qed.

End Scripts.

Lemma rendering_escalated (b p : pyval) (host : string) (w : World) :
  escalated (rendering b p host w).
Proof.
  split; [by eexists|]. simpl. intros m t c l Hin. by apply elem_of_nil in Hin.
Qed.

(** * Broken links *)

(** C2: when [freeze] gets past its configuration, the renderer starts in a
    world whose first warning filter turns [FrozenFlaskWarning] into an
    error.  So [freeze] returns only when the renderer issued no warning
    of that family; the first such warning, if the ones before it went by
    without an exception, ends [freeze] with that warning as the exception
    raised; and no warning of the family is merely shown. *)
Theorem freeze_escalates_render_warnings
    (E : Env) (self : Elsa) (path base_url : pyval) (w : World)
    (url host : string) :
  resolved_base_url self base_url w = PStr url → url ≠ "" →
  urlparse_netloc E url = inl host →
  truthy (resolved_path path w) = true →
  let wr := rendering (PStr url) (resolved_path path w) host w in
  let s := freezer_freeze (self_freezer self) wr in
  filters wr = escalation :: remove_first escalation (filters w)
  ∧ (fst (freeze E self path base_url w) = Ok () →
     Forall (λ wn, is_ffw wn = false) (warnings_of s))
  ∧ (∀ pre wn k,
       s = foldr Warn (Warn wn k) pre →
       Forall (λ x, is_ffw x = false) pre →
       is_ffw wn = true →
       fst (run_script E (foldr Warn Done pre) wr) = Ok () →
       freeze E self path base_url w
       = (Raise (WarningRaised (w_category wn) (w_text wn)),
          snd (run_script E (foldr Warn Done pre) wr)))
  ∧ (∀ wn, is_ffw wn = true →
       ShowWarning wn ∈ log (snd (freeze E self path base_url w)) →
       ShowWarning wn ∈ log w).
Proof.
  intros Hb Hne Hparse Hpath wr s.
  rewrite (freeze_renders E _ _ _ _ _ _ Hb Hne Hparse Hpath).
  fold wr. fold s.
  pose proof (rendering_escalated (PStr url) (resolved_path path w) host w) as Hesc.
  fold wr in Hesc.
  split; [reflexivity|]. split; [by apply run_script_escalated_ok|].
  split.
  - intros pre wn k -> Hpre Hffw Hok. by apply run_script_first_ffw.
  - intros wn Hffw Hin.
    apply (run_script_shows_no_ffw E s wr wn Hesc Hffw) in Hin.
    subst wr. simpl in Hin. rewrite !elem_of_app in Hin.
    destruct Hin as [[Hin|Hin]|Hin]; [done| |];
      apply list_elem_of_singleton in Hin; discriminate.
Qed.

Lemma freeze_escalates_render_warnings_witness :
  freeze Demo.env Demo.elsa (PStr "_build") (PStr Demo.url) Demo.world
  = (Raise (WarningRaised NotFoundWarning "Nothing frozen for endpoints missing"),
     rendering (PStr Demo.url) (PStr "_build") "example.com" Demo.world).
Proof.
  destruct (freeze_escalates_render_warnings
              Demo.env Demo.elsa (PStr "_build") (PStr Demo.url) Demo.world
              Demo.url "example.com")
    as (_ & _ & Hfirst & _).
  - reflexivity.
  - discriminate.
  - reflexivity.
  - reflexivity.
  - apply (Hfirst [] Demo.not_found Done).
    + reflexivity.
    + constructor.
    + reflexivity.
    + reflexivity.
Defined.

(** C3: when [freeze] ends with a warning of the [FrozenFlaskWarning] family
    raised as an exception, [freeze_fail_exit] prints the error on the
    error stream and exits with status 1. *)
Theorem freeze_fail_exit_on_broken_link
    (E : Env) (self : Elsa) (path base_url : pyval) (w w' : World)
    (c : category) (text : string) :
  freeze E self path base_url w = (Raise (WarningRaised c text), w') →
  issubclass c FrozenFlaskWarning = true →
  freeze_fail_exit E self path base_url w
  = (Raise (SystemExit 1), set_log (λ l, l ++ [Stderr ("Error: " +:+ text)]) w')
  ∧ exit_status (fst (freeze_fail_exit E self path base_url w)) = 1%Z.
Proof.
  intros Hfreeze Hsub.
  assert (Hrun : freeze_fail_exit E self path base_url w
    = (Raise (SystemExit 1), set_log (λ l, l ++ [Stderr ("Error: " +:+ text)]) w')).
  { unfold freeze_fail_exit, try_except. rewrite Hfreeze, Hsub.
    unfold eprint. step. reflexivity. }
  split; [exact Hrun|]. by rewrite Hrun.
Qed.

Lemma freeze_fail_exit_on_broken_link_witness :
  freeze_fail_exit Demo.env Demo.elsa (PStr "_build") (PStr Demo.url) Demo.world
  = (Raise (SystemExit 1),
     set_log (λ l, l ++ [Stderr "Error: Nothing frozen for endpoints missing"])
       (rendering (PStr Demo.url) (PStr "_build") "example.com" Demo.world))
  ∧ exit_status (fst (freeze_fail_exit Demo.env Demo.elsa (PStr "_build")
                        (PStr Demo.url) Demo.world)) = 1%Z.
Proof.
  apply (freeze_fail_exit_on_broken_link
           Demo.env Demo.elsa (PStr "_build") (PStr Demo.url) Demo.world
           (rendering (PStr Demo.url) (PStr "_build") "example.com" Demo.world)
           NotFoundWarning "Nothing frozen for endpoints missing").
  - reflexivity.
  - reflexivity.
Defined.

(** * What [freeze] leaves in the application config *)

Section FreezeConfig.
Context (E : Env).

Lemma freeze_stores self path base_url w :
  truthy (resolved_base_url self base_url w) = true →
  app_config (snd (freeze E self path base_url w)) !! "FREEZER_BASE_URL"
  = Some (resolved_base_url self base_url w)
  ∧ app_config (snd (freeze E self path base_url w)) !! "FREEZER_DESTINATION"
    = Some (resolved_path path w).
Proof.
  intros Hb. destruct (truthy_PStr _ Hb) as (url & Hurl & Hne). rewrite Hurl.
  destruct (urlparse_netloc E url) as [host|msg] eqn:Hparse.
  - destruct (truthy (resolved_path path w)) eqn:Hpath.
    + rewrite (freeze_renders E _ _ _ _ _ _ Hurl Hne Hparse Hpath).
      destruct (run_script_frame E
        (freezer_freeze (self_freezer self)
           (rendering (PStr url) (resolved_path path w) host w))
        (rendering (PStr url) (resolved_path path w) host w)) as (-> & _).
      simpl. rewrite !lookup_insert_ne by done. rewrite lookup_insert_eq.
      rewrite lookup_insert_ne by done. by rewrite !lookup_insert_eq.
    + rewrite (freeze_no_path E _ _ _ _ _ _ Hurl Hne Hparse Hpath). simpl.
      rewrite !lookup_insert_ne by done. rewrite lookup_insert_eq.
      rewrite lookup_insert_ne by done. by rewrite !lookup_insert_eq.
  - rewrite (freeze_bad_url E _ _ _ _ _ _ Hurl Hne Hparse). simpl.
    rewrite lookup_insert_ne by done. by rewrite !lookup_insert_eq.
Qed.

Lemma freeze_server_name self path base_url w url host :
  resolved_base_url self base_url w = PStr url → url ≠ "" →
  urlparse_netloc E url = inl host →
  app_config (snd (freeze E self path base_url w)) !! "SERVER_NAME"
  = Some (PStr host)
  ∧ app_routes (snd (freeze E self path base_url w)) = app_routes w.
Proof.
  intros Hurl Hne Hparse.
  destruct (truthy (resolved_path path w)) eqn:Hpath.
  - rewrite (freeze_renders E _ _ _ _ _ _ Hurl Hne Hparse Hpath).
    destruct (run_script_frame E
      (freezer_freeze (self_freezer self)
         (rendering (PStr url) (resolved_path path w) host w))
      (rendering (PStr url) (resolved_path path w) host w)) as (-> & -> & _).
    simpl. by rewrite lookup_insert_eq.
  - rewrite (freeze_no_path E _ _ _ _ _ _ Hurl Hne Hparse Hpath). simpl.
    by rewrite lookup_insert_eq.
Qed.

Lemma cname_serves (w : World) (v : pyval) :
  app_config w !! "SERVER_NAME" = Some v →
  cname w = (Ok {| body := v; mimetype := "application/octet-stream" |}, w).
Proof.
  intros H. unfold cname, config_getitem. step. rewrite H. reflexivity.
Qed.

End FreezeConfig.

(** C10: [freeze] settles on the base URL and the path by the stated
    precedence.  With [b] the explicit argument if non-empty, else the
    instance's base URL if non-empty, else the configured one, and [p] the
    explicit path if non-empty, else the configured one: when [b] is empty
    the call fails for want of a base URL and changes nothing; otherwise
    [b] and [p] are what the call leaves under [FREEZER_BASE_URL] and
    [FREEZER_DESTINATION]. *)
Theorem freeze_resolution_precedence
    (E : Env) (self : Elsa) (path base_url : pyval) (w : World) :
  let b := effective_base_url base_url (self_base_url self)
             (default PNone (app_config w !! "FREEZER_BASE_URL")) in
  let p := effective_path path
             (default PNone (app_config w !! "FREEZER_DESTINATION")) in
  let w' := snd (freeze E self path base_url w) in
  if truthy b
  then app_config w' !! "FREEZER_BASE_URL" = Some b
       ∧ app_config w' !! "FREEZER_DESTINATION" = Some p
  else freeze E self path base_url w
       = (Raise (ValueError "No base URL provided"), w).
Proof.
  intros b p w'. subst b p w'. rewrite <- resolved_is_effective.
  destruct (truthy (resolved_base_url self base_url w)) eqn:Hb.
  - by apply freeze_stores.
  - by apply freeze_no_base_url.
Qed.

(** * The server name and the CNAME file *)

(** C4: when the resolved base URL is non-empty and [urlparse] accepts
    it, [freeze] leaves its network location under [SERVER_NAME]; and the
    view that [_inject_cname] mounts at [/CNAME] answers with exactly that
    name. *)
Theorem server_name_is_netloc_of_base_url
    (E : Env) (self : Elsa) (path base_url : pyval) (w : World)
    (url host : string) :
  resolved_base_url self base_url w = PStr url → url ≠ "" →
  urlparse_netloc E url = inl host →
  let w' := snd (freeze E self path base_url (snd (_inject_cname w))) in
  app_config (snd (freeze E self path base_url w)) !! "SERVER_NAME"
  = Some (PStr host)
  ∧ app_config w' !! "SERVER_NAME" = Some (PStr host)
  ∧ ("/CNAME", CnameView) ∈ app_routes w'
  ∧ cname w'
    = (Ok {| body := PStr host; mimetype := "application/octet-stream" |}, w').
Proof.
  intros Hurl Hne Hparse w'.
  split; [by eapply freeze_server_name|].
  assert (Hurl' : resolved_base_url self base_url (snd (_inject_cname w)) = PStr url)
    by exact Hurl.
  destruct (freeze_server_name E self path base_url _ url host Hurl' Hne Hparse)
    as [Hname Hroutes].
  fold w' in Hname, Hroutes.
  split; [exact Hname|]. split.
  - rewrite Hroutes. simpl. apply elem_of_app. right. by apply list_elem_of_singleton.
  - by apply cname_serves.
Qed.

Lemma server_name_is_netloc_of_base_url_witness :
  let w' := snd (freeze Demo.env Demo.elsa (PStr "_build") (PStr Demo.url)
                   (snd (_inject_cname Demo.world))) in
  app_config w' !! "SERVER_NAME" = Some (PStr "example.com")
  ∧ ("/CNAME", CnameView) ∈ app_routes w'
  ∧ cname w'
    = (Ok {| body := PStr "example.com"; mimetype := "application/octet-stream" |}, w').
Proof.
  apply (server_name_is_netloc_of_base_url
           Demo.env Demo.elsa (PStr "_build") (PStr Demo.url) Demo.world
           Demo.url "example.com").
  - reflexivity.
  - discriminate.
  - reflexivity.
Defined.

(** * Invariants and the events a computation adds *)

Section Hoare.
Context (E : Env) (I : World → Prop) (P : event → Prop).
Hypothesis HI : routes_only I.
Hypothesis HP : ∀ ev, publisher_event ev = false → P ev.

Lemma hoare_ret {A : Type} (a : A) : hoare I P (mret a : M A).
Proof. intros w Hw. simpl. auto. Qed.

Lemma hoare_raise {A : Type} (e : exn) : hoare I P (raise e : M A).
Proof. intros w Hw. simpl. auto. Qed.

Lemma hoare_gets {A : Type} (f : World → A) : hoare I P (gets f).
Proof. intros w Hw. simpl. auto. Qed.

Lemma hoare_bind {A B : Type} (m : M A) (f : A → M B) :
  hoare I P m → (∀ a, hoare I P (f a)) → hoare I P (m ≫= f).
Proof.
  intros Hm Hf w Hw. rewrite run_bind. destruct (Hm w Hw) as [Hw1 Hlog1].
  destruct (m w) as [[a|e] w1]; simpl in *; [|by split].
  destruct (Hf a w1 Hw1) as [Hw2 Hlog2]. split; [done|].
  intros ev Hev. destruct (Hlog2 ev Hev); auto.
Qed.

Lemma hoare_try_except {A : Type} (m : M A) (h : exn → option (M A)) :
  hoare I P m → (∀ e k, h e = Some k → hoare I P k) → hoare I P (try_except m h).
Proof.
  intros Hm Hh w Hw. unfold try_except. destruct (Hm w Hw) as [Hw1 Hlog1].
  destruct (m w) as [[a|e] w1]; simpl in *; [by split|].
  destruct (h e) as [k|] eqn:Hk; [|by split].
  destruct (Hh e k Hk w1 Hw1) as [Hw2 Hlog2]. split; [done|].
  intros ev Hev. destruct (Hlog2 ev Hev); auto.
Qed.

Lemma hoare_if {A : Type} (b : bool) (m1 m2 : M A) :
  hoare I P m1 → hoare I P m2 → hoare I P (if b then m1 else m2).
Proof. by destruct b. Qed.

(** A change that leaves the routes and the log alone. *)
Lemma hoare_modify (f : World → World) :
  (∀ w, app_routes (f w) = app_routes w) → (∀ w, log (f w) = log w) →
  hoare I P (modify f).
Proof.
  intros Hr Hl w Hw. simpl. split; [by apply (HI w)|]. rewrite Hl. auto.
Qed.

Lemma hoare_emit (e : event) : P e → hoare I P (emit e).
Proof.
  intros He w Hw. simpl. split; [by apply (HI w)|].
  intros ev. rewrite elem_of_app, list_elem_of_singleton. intros [?| ->]; auto.
Qed.

Lemma hoare_config_get (key : string) : hoare I P (config_get key).
Proof. intros w Hw. simpl. auto. Qed.

Lemma hoare_config_set (key : string) (v : pyval) : hoare I P (config_set key v).
Proof. by apply hoare_modify. Qed.

Lemma hoare_add_filter (item : wfilter) : hoare I P (_add_filter item).
Proof. apply hoare_bind; [|intros _]; by apply hoare_modify. Qed.

Lemma hoare_warn (wn : warning) : hoare I P (warn E wn).
Proof.
  intros w Hw. destruct (warn_frame E wn w) as (_ & Hr & _ & Hlog).
  split; [by apply (HI w)|]. intros ev.
  destruct Hlog as [->|[-> _]]; [auto|].
  rewrite elem_of_app, list_elem_of_singleton. intros [?| ->]; auto.
Qed.

Lemma hoare_run_script (s : script) : hoare I P (run_script E s).
Proof.
  induction s as [|wn k IH|e]; simpl.
  - apply hoare_ret.
  - apply hoare_bind; [apply hoare_warn|by intros _].
  - apply hoare_raise.
Qed.

Lemma hoare_call (ev : event) (behaviour : World → script) :
  P ev → hoare I P (call E ev behaviour).
Proof.
  intros Hev. unfold call. apply hoare_bind; [by apply hoare_emit|intros _].
  apply hoare_bind; [apply hoare_gets|intros w]. apply hoare_run_script.
Qed.

Lemma hoare_urlparse_netloc_of (v : pyval) : hoare I P (urlparse_netloc_of E v).
Proof.
  destruct v as [|url]; simpl; [apply hoare_ret|].
  destruct (urlparse_netloc E url); [apply hoare_ret|apply hoare_raise].
Qed.

Lemma hoare_freeze self path base_url : hoare I P (freeze E self path base_url).
Proof.
  unfold freeze.
  apply hoare_bind; [apply hoare_config_get|intros configured].
  apply hoare_if; [apply hoare_raise|].
  apply hoare_bind; [apply hoare_config_set|intros _].
  apply hoare_bind; [apply hoare_config_get|intros destination].
  apply hoare_bind; [apply hoare_config_set|intros _].
  apply hoare_bind; [apply hoare_urlparse_netloc_of|intros netloc].
  apply hoare_bind; [apply hoare_config_set|intros _].
  apply hoare_if; [apply hoare_raise|].
  apply hoare_bind; [apply hoare_add_filter|intros _].
  apply hoare_bind; [by apply hoare_emit, HP|intros _].
  by apply hoare_call, HP.
Qed.

Lemma hoare_freeze_fail_exit self path base_url :
  hoare I P (freeze_fail_exit E self path base_url).
Proof.
  unfold freeze_fail_exit. apply hoare_try_except; [apply hoare_freeze|].
  intros [] k Hk; try discriminate.
  destruct (issubclass c FrozenFlaskWarning); [|discriminate].
  injection Hk as <-.
  apply hoare_bind; [by apply hoare_emit, HP|intros _]. apply hoare_raise.
Qed.

Lemma hoare_serve self port : hoare I P (serve E self port).
Proof. by apply hoare_call, HP. Qed.

Lemma hoare_deploy_ (path remote : pyval) (push show_err : bool) :
  P (CallDeploy path remote push show_err) →
  P (GitCommit path) → P (GitPush remote) →
  (∀ diag, git_push E remote = Some diag → push = true → show_err = true →
           P (PushStderr diag)) →
  hoare I P (deploy_ E path remote push show_err).
Proof.
  intros Hcall Hcommit Hpush Hdiag. unfold deploy_.
  apply hoare_bind; [by apply hoare_emit|intros _].
  apply hoare_if; [apply hoare_raise|].
  apply hoare_bind; [by apply hoare_emit|intros _].
  destruct push; [|apply hoare_ret].
  destruct (git_push E remote) as [diag|] eqn:Hgit; [|by apply hoare_emit].
  apply hoare_bind; [|intros _; apply hoare_raise].
  destruct show_err; [|apply hoare_ret]. apply hoare_emit. by apply Hdiag.
Qed.

End Hoare.

(** * The commands *)

Section Commands.
Context (E : Env).

Lemma always_matches_deprecation :
  filter_matches E deprecation always_filter = true.
Proof. reflexivity. Qed.

(** A warning whose first matching filter says [always] is shown. *)
Lemma warn_always (wn : warning) (w : World) (f : wfilter) (rest : list wfilter) :
  filters w = f :: rest → filter_matches E wn f = true →
  f_action f = act_always → registry w = [] →
  warn E wn w = (Ok (), set_log (λ l, l ++ [ShowWarning wn]) w).
Proof.
  intros Hf Hmatch Hact Hreg. unfold warn. step. rewrite Hreg.
  rewrite bool_decide_eq_false_2 by apply not_elem_of_nil.
  step. rewrite Hf. unfold find_action. simpl. rewrite Hmatch, Hact.
  reflexivity.
Qed.

(** The deploy command's warning is shown whatever the filters were. *)
Lemma deprecation_is_shown (w : World) :
  (simplefilter act_always;; warn E deprecation;; mret true) w
  = (Ok true, deprecated w).
Proof.
  unfold simplefilter, _add_filter. step.
  erewrite warn_always; [reflexivity|reflexivity| |reflexivity|reflexivity].
  apply always_matches_deprecation.
Qed.

Lemma run_path_option (given : option string) (w : World) :
  _path_option given w
  = (Ok (PStr (default (os_path_join (app_root_path w) "_build") given)), w).
Proof. reflexivity. Qed.

Lemma cli_deploy_unspecified_push (self : Elsa) (o : deploy_opts) (w : World) :
  do_push o = None →
  cli_deploy E self o w = cli_deploy E self (with_push true o) (deprecated w).
Proof.
  intros Hpush. unfold cli_deploy. rewrite Hpush.
  rewrite !(run_bind (_path_option _)), !run_path_option. cbv beta iota.
  rewrite (run_bind (simplefilter act_always;; warn E deprecation;; mret true)).
  rewrite deprecation_is_shown. reflexivity.
Qed.

End Commands.

Section HoareCommands.
Context (E : Env) (I : World → Prop) (P : event → Prop).
Hypothesis HI : routes_only I.
Hypothesis HP : ∀ ev, publisher_event ev = false → P ev.
Hypothesis Hcname :
  ∀ w, I w → I (set_routes (λ rs, rs ++ [("/CNAME", CnameView)]) w).

Lemma hoare_inject_cname : hoare I P _inject_cname.
Proof. intros w Hw. simpl. split; [by apply Hcname|auto]. Qed.

Lemma hoare_path_option (given : option string) : hoare I P (_path_option given).
Proof.
  unfold _path_option. apply hoare_bind; [by apply hoare_gets|intros root].
  by apply hoare_ret.
Qed.

Lemma hoare_ret_bind {A B : Type} (a : A) (f : A → M B) :
  hoare I P (f a) → hoare I P (mret a ≫= f).
Proof. intros H w Hw. exact (H w Hw). Qed.

Lemma hoare_cli_freeze (self : Elsa) (o : freeze_opts) :
  hoare I P (cli_freeze E self o).
Proof.
  unfold cli_freeze.
  apply hoare_bind; [apply hoare_path_option|intros path].
  apply hoare_bind;
    [apply hoare_if; [apply hoare_inject_cname|by apply hoare_ret]|intros _].
  apply hoare_if; [by apply hoare_raise|].
  apply hoare_bind; [by apply hoare_freeze_fail_exit|intros _].
  apply hoare_if; [by apply hoare_serve|by apply hoare_ret].
Qed.

Lemma hoare_cli_deploy (self : Elsa) (o : deploy_opts) (push : bool) :
  do_push o = Some push →
  (∀ path remote, P (CallDeploy path remote push (do_show_git_push_stderr o))) →
  (∀ path, P (GitCommit path)) → (∀ remote, P (GitPush remote)) →
  (∀ diag, do_show_git_push_stderr o = true → P (PushStderr diag)) →
  hoare I P (cli_deploy E self o).
Proof.
  intros Hpush Hcall Hcommit Hgit Hdiag. unfold cli_deploy. rewrite Hpush.
  apply hoare_bind; [apply hoare_path_option|intros path].
  apply hoare_ret_bind.
  apply hoare_bind.
  - apply hoare_if; [|by apply hoare_ret].
    apply hoare_bind;
      [apply hoare_if; [apply hoare_inject_cname|by apply hoare_ret]|intros _].
    apply hoare_if; [by apply hoare_raise|by apply hoare_freeze_fail_exit].
  - intros _. apply hoare_deploy_; auto.
Qed.

End HoareCommands.

Lemma hoare_deploy (E : Env) (I : World → Prop) (P : event → Prop)
    (self : Elsa) (path remote : pyval) (push show_err : option bool) :
  routes_only I →
  (∀ p r, P (CallDeploy p r (default false push) (default false show_err))) →
  (∀ p, P (GitCommit p)) → (∀ r, P (GitPush r)) →
  (∀ diag, default false show_err = true → P (PushStderr diag)) →
  hoare I P (deploy E self path remote push show_err).
Proof.
  intros HI Hcall Hcommit Hgit Hdiag. unfold deploy.
  apply hoare_bind; [by apply hoare_config_get|intros destination].
  apply hoare_deploy_; auto.
Qed.

(** The click wrapper adds the usage report and nothing to the routes. *)
Lemma command_routes (E : Env) (self : Elsa) (argv : invocation) (w : World) :
  app_routes (snd (command E self argv w))
  = app_routes (snd (match argv with
                     | Serve o => cli_serve E self o
                     | Freeze o => cli_freeze E self o
                     | Deploy o => cli_deploy E self o
                     end w)).
Proof.
  unfold command, try_except. rewrite run_bind.
  destruct (match argv with
            | Serve o => cli_serve E self o
            | Freeze o => cli_freeze E self o
            | Deploy o => cli_deploy E self o
            end w) as [[[]|e] w1]; [reflexivity|].
  by destruct e.
Qed.

Lemma cli_serve_routes (E : Env) (self : Elsa) (o : serve_opts) (w : World) :
  app_routes (snd (cli_serve E self o w))
  = (app_routes w ++ [(shutdown_rule E, ShutdownView)])
    ++ (if _cname_option (so_cname o) then [("/CNAME", CnameView)] else []).
Proof.
  unfold cli_serve, _inject_shutdown, inject_shutdown, _inject_cname, call.
  step.
  destruct (truthy _ || is_None _); step;
    destruct (_cname_option (so_cname o)); step;
    match goal with
    | |- context [run_script E ?s ?w1] =>
        destruct (run_script_frame E s w1) as (_ & -> & _)
    end; simpl; by rewrite ?app_nil_r.
Qed.

(** * The shutdown endpoint *)

(** C6: the serve command mounts the shutdown endpoint on the
    application; the freeze and deploy commands, and the methods [freeze],
    [freeze_fail_exit] and [deploy] behind them, mount none: a shutdown
    view among the routes afterwards was there before. *)
Theorem shutdown_endpoint_only_in_serve (E : Env) (self : Elsa) (w : World) :
  (∀ o, (shutdown_rule E, ShutdownView)
        ∈ app_routes (snd (command E self (Serve o) w)))
  ∧ (∀ o rule, (rule, ShutdownView) ∈ app_routes (snd (command E self (Freeze o) w)) →
               (rule, ShutdownView) ∈ app_routes w)
  ∧ (∀ o rule, (rule, ShutdownView) ∈ app_routes (snd (command E self (Deploy o) w)) →
               (rule, ShutdownView) ∈ app_routes w)
  ∧ (∀ path base_url,
       app_routes (snd (freeze E self path base_url w)) = app_routes w)
  ∧ (∀ path base_url,
       app_routes (snd (freeze_fail_exit E self path base_url w)) = app_routes w)
  ∧ (∀ path remote push show_err,
       app_routes (snd (deploy E self path remote push show_err w)) = app_routes w).
Proof.
  set (I := λ x : World, ∀ rule, (rule, ShutdownView) ∈ app_routes x →
                                 (rule, ShutdownView) ∈ app_routes w).
  set (J := λ x : World, app_routes x = app_routes w).
  set (P := λ _ : event, True).
  assert (HI : routes_only I).
  { intros x x' Hr Hx rule. rewrite Hr. apply Hx. }
  assert (HJ : routes_only J).
  { intros x x' Hr Hx. unfold J. by rewrite Hr. }
  assert (HP : ∀ ev, publisher_event ev = false → P ev) by done.
  assert (Hcname : ∀ x, I x → I (set_routes (λ rs, rs ++ [("/CNAME", CnameView)]) x)).
  { intros x Hx rule. simpl. rewrite elem_of_app, list_elem_of_singleton.
    intros [Hin|Heq]; [by apply Hx|discriminate]. }
  assert (Hw : I w) by (by intros rule).
  repeat split.
  - intros o. rewrite command_routes, cli_serve_routes.
    rewrite !elem_of_app, list_elem_of_singleton. auto.
  - intros o rule. rewrite command_routes.
    apply (hoare_cli_freeze E I P HI HP Hcname self o w Hw).
  - intros o rule. rewrite command_routes.
    destruct (do_push o) as [push|] eqn:Hpush.
    + by apply (hoare_cli_deploy E I P HI HP Hcname self o push Hpush).
    + rewrite (cli_deploy_unspecified_push E self o w Hpush).
      apply (hoare_cli_deploy E I P HI HP Hcname self (with_push true o) true);
        [done..|].
      intros r. apply Hw.
  - intros path base_url.
    by apply (hoare_freeze E J P HJ HP self path base_url w).
  - intros path base_url.
    by apply (hoare_freeze_fail_exit E J P HJ HP self path base_url w).
  - intros path remote push show_err.
    by apply (hoare_deploy E J P self path remote push show_err HJ).
Qed.

(** * The deploy command's push default *)

(** C5: the deploy command run without [--push] or [--no-push] shows the
    deprecation warning and goes on exactly as the same command with
    [--push] would from there; every call of the publisher it makes has
    [push] set, and with [--no-freeze] the publisher is what runs next. *)
Theorem deploy_unspecified_push_warns_then_pushes
    (E : Env) (self : Elsa) (o : deploy_opts) (w : World) :
  do_push o = None →
  cli_deploy E self o w = cli_deploy E self (with_push true o) (deprecated w)
  ∧ log (deprecated w) = log w ++ [ShowWarning deprecation]
  ∧ (∀ path remote push show_err,
       CallDeploy path remote push show_err ∈ log (snd (cli_deploy E self o w)) →
       CallDeploy path remote push show_err ∈ log w ∨ push = true)
  ∧ (do_freeze o = Some false →
     cli_deploy E self o w
     = deploy_ E (PStr (default (os_path_join (app_root_path w) "_build") (do_path o)))
         (PStr (default DEFAULT_REMOTE (do_remote o))) true
         (do_show_git_push_stderr o) (deprecated w)).
Proof.
  intros Hpush. pose proof (cli_deploy_unspecified_push E self o w Hpush) as Heq.
  split; [exact Heq|]. split; [reflexivity|]. split.
  - intros path remote push show_err. rewrite Heq.
    set (P := λ ev : event, ∀ p r pu se, ev = CallDeploy p r pu se → pu = true).
    assert (Hrun : hoare (λ _, True) P (cli_deploy E self (with_push true o))).
    { apply (hoare_cli_deploy E _ P) with (push := true); try done.
      - intros ev Hev p r pu se ->. discriminate.
      - intros p r p' r' pu se Hcall. by injection Hcall as _ _ <- _. }
    destruct (Hrun (deprecated w) Logic.I) as [_ Hlog].
    intros Hin. destruct (Hlog _ Hin) as [Hold|Hnew].
    + simpl in Hold. rewrite elem_of_app, list_elem_of_singleton in Hold.
      destruct Hold as [Hold|Hold]; [by left|discriminate].
    + right. by eapply Hnew.
  - intros Hfreeze. rewrite Heq. unfold cli_deploy. simpl. rewrite Hfreeze.
    reflexivity.
Qed.

Lemma deploy_unspecified_push_warns_then_pushes_witness :
  log (snd (cli_deploy Demo.env Demo.elsa
              {| do_path := Some "_build"; do_base_url := None;
                 do_remote := None; do_push := None;
                 do_freeze := Some false;
                 do_show_git_push_stderr := false; do_cname := None |}
              Demo.world))
  = [ShowWarning deprecation;
     CallDeploy (PStr "_build") (PStr "origin") true false;
     GitCommit (PStr "_build")].
Proof.
  destruct (deploy_unspecified_push_warns_then_pushes Demo.env Demo.elsa
              {| do_path := Some "_build"; do_base_url := None;
                 do_remote := None; do_push := None;
                 do_freeze := Some false;
                 do_show_git_push_stderr := false; do_cname := None |}
              Demo.world) as (_ & _ & _ & Hrun).
  - reflexivity.
  - rewrite Hrun; reflexivity.
Defined.

(** * The missing base URL at the command line *)

Lemma cli_freeze_usage_error (E : Env) (self : Elsa) (o : freeze_opts) (w : World) :
  truthy (_base_url_option self (fo_base_url o)) = false →
  cli_freeze E self o w
  = (Raise (UsageError "No base URL provided, use --base-url"),
     if _cname_option (fo_cname o)
     then set_routes (λ rs, rs ++ [("/CNAME", CnameView)]) w else w).
Proof.
  intros Hb. unfold cli_freeze.
  rewrite (run_bind (_path_option _)), run_path_option. cbv beta iota.
  rewrite Hb. unfold _inject_cname.
  destruct (_cname_option (fo_cname o)); step; reflexivity.
Qed.

Lemma cli_deploy_usage_error (E : Env) (self : Elsa) (o : deploy_opts)
    (push : bool) (w : World) :
  do_push o = Some push → default true (do_freeze o) = true →
  truthy (_base_url_option self (do_base_url o)) = false →
  cli_deploy E self o w
  = (Raise (UsageError "No base URL provided, use --base-url"),
     if _cname_option (do_cname o)
     then set_routes (λ rs, rs ++ [("/CNAME", CnameView)]) w else w).
Proof.
  intros Hpush Hfreeze Hb. unfold cli_deploy.
  rewrite (run_bind (_path_option _)), run_path_option. cbv beta iota.
  rewrite Hpush, Hfreeze, Hb. unfold _inject_cname.
  destruct (_cname_option (do_cname o)); step; reflexivity.
Qed.

Lemma command_usage_error (E : Env) (self : Elsa) (argv : invocation)
    (msg : string) (w w1 : World) :
  match argv with
  | Serve o => cli_serve E self o
  | Freeze o => cli_freeze E self o
  | Deploy o => cli_deploy E self o
  end w = (Raise (UsageError msg), w1) →
  command E self argv w
  = (Raise (SystemExit 2), set_log (λ l, l ++ [UsageShown msg]) w1).
Proof.
  intros Hbody. unfold command, try_except. rewrite run_bind, Hbody.
  reflexivity.
Qed.

(** C8: with no [--base-url] on the command line and no base URL given to
    the instance, the freeze command, and the deploy command unless
    [--no-freeze] is given, end as a usage error with exit status 2.  The
    application config is untouched, and what has reached the log is the
    deprecation warning of deploy, when it is due, and the usage report:
    the renderer and the publisher were not called. *)
Theorem missing_base_url_is_usage_error
    (E : Env) (self : Elsa) (w : World)
    (fo : freeze_opts) (dopt : deploy_opts) :
  truthy (self_base_url self) = false →
  fo_base_url fo = None →
  do_base_url dopt = None →
  do_freeze dopt ≠ Some false →
  let usage := UsageShown "No base URL provided, use --base-url" in
  let wf := snd (command E self (Freeze fo) w) in
  let wd := snd (command E self (Deploy dopt) w) in
  (fst (command E self (Freeze fo) w) = Raise (SystemExit 2)
   ∧ exit_status (fst (command E self (Freeze fo) w)) ≠ 0%Z
   ∧ app_config wf = app_config w
   ∧ log wf = log w ++ [usage])
  ∧ (fst (command E self (Deploy dopt) w) = Raise (SystemExit 2)
     ∧ exit_status (fst (command E self (Deploy dopt) w)) ≠ 0%Z
     ∧ app_config wd = app_config w
     ∧ log wd = log w
                ++ match do_push dopt with
                   | Some _ => []
                   | None => [ShowWarning deprecation]
                   end
                ++ [usage]).
Proof.
  intros Hself Hfo Hdo Hfreeze usage wf wd. subst usage wf wd.
  assert (Hfreeze' : default true (do_freeze dopt) = true).
  { by destruct (do_freeze dopt) as [[]|]. }
  split.
  - rewrite (command_usage_error E self (Freeze fo) _ w _
               (cli_freeze_usage_error E self fo w
                  ltac:(by rewrite Hfo))).
    simpl. by destruct (_cname_option (fo_cname fo)).
  - destruct (do_push dopt) as [push|] eqn:Hpush.
    + rewrite (command_usage_error E self (Deploy dopt) _ w _
                 (cli_deploy_usage_error E self dopt push w Hpush Hfreeze'
                    ltac:(by rewrite Hdo))).
      simpl. by destruct (_cname_option (do_cname dopt)).
    + assert (Hbody : cli_deploy E self dopt w
                = (Raise (UsageError "No base URL provided, use --base-url"),
                   if _cname_option (do_cname dopt)
                   then set_routes (λ rs, rs ++ [("/CNAME", CnameView)]) (deprecated w)
                   else deprecated w)).
      { rewrite (cli_deploy_unspecified_push E self dopt w Hpush).
        apply (cli_deploy_usage_error E self (with_push true dopt) true);
          [done|done|]. simpl. by rewrite Hdo. }
      rewrite (command_usage_error E self (Deploy dopt) _ w _ Hbody).
      simpl. destruct (_cname_option (do_cname dopt)); simpl;
        by rewrite <- app_assoc.
Qed.

Lemma missing_base_url_is_usage_error_witness :
  command Demo.env Demo.elsa
    (Freeze {| fo_path := None; fo_base_url := None; fo_serve := None;
               fo_port := None; fo_cname := None |}) Demo.world
  = (Raise (SystemExit 2),
     set_log (λ l, l ++ [UsageShown "No base URL provided, use --base-url"])
       (set_routes (λ rs, rs ++ [("/CNAME", CnameView)]) Demo.world))
  ∧ log (snd (command Demo.env Demo.elsa
                (Deploy {| do_path := None; do_base_url := None;
                           do_remote := None; do_push := None;
                           do_freeze := None;
                           do_show_git_push_stderr := false;
                           do_cname := None |}) Demo.world))
    = [ShowWarning deprecation;
       UsageShown "No base URL provided, use --base-url"].
Proof.
  destruct (missing_base_url_is_usage_error Demo.env Demo.elsa Demo.world
              {| fo_path := None; fo_base_url := None; fo_serve := None;
                 fo_port := None; fo_cname := None |}
              {| do_path := None; do_base_url := None;
                 do_remote := None; do_push := None;
                 do_freeze := None;
                 do_show_git_push_stderr := false;
                 do_cname := None |})
    as [_ (_ & _ & _ & Hlog)].
  - reflexivity.
  - reflexivity.
  - reflexivity.
  - discriminate.
  - split; [reflexivity|exact Hlog].
Defined.

(** * Further properties of [freeze] *)

Section FreezeMore.
Context (E : Env).

Lemma freeze_configures self path base_url w url host :
  resolved_base_url self base_url w = PStr url → url ≠ "" →
  urlparse_netloc E url = inl host →
  app_config (snd (freeze E self path base_url w))
  = <["SERVER_NAME" := PStr host]>
      (<["FREEZER_DESTINATION" := resolved_path path w]>
         (<["FREEZER_BASE_URL" := PStr url]> (app_config w))).
Proof.
  intros Hurl Hne Hparse.
  destruct (truthy (resolved_path path w)) eqn:Hpath.
  - rewrite (freeze_renders E _ _ _ _ _ _ Hurl Hne Hparse Hpath).
    by destruct (run_script_frame E
      (freezer_freeze (self_freezer self)
         (rendering (PStr url) (resolved_path path w) host w))
      (rendering (PStr url) (resolved_path path w) host w)) as (-> & _).
  - by rewrite (freeze_no_path E _ _ _ _ _ _ Hurl Hne Hparse Hpath).
Qed.

Lemma resolved_base_url_stable self base_url (w w1 : World) url :
  resolved_base_url self base_url w = PStr url →
  app_config w1 !! "FREEZER_BASE_URL" = Some (PStr url) →
  resolved_base_url self base_url w1 = PStr url.
Proof.
  unfold resolved_base_url, py_or at 1 3. intros Hw Hcfg. rewrite Hcfg. simpl.
  by destruct (truthy (py_or base_url (self_base_url self))).
Qed.

Lemma resolved_path_stable path (w w1 : World) :
  app_config w1 !! "FREEZER_DESTINATION" = Some (resolved_path path w) →
  resolved_path path w1 = resolved_path path w.
Proof.
  unfold resolved_path, py_or. intros Hcfg.
  destruct (truthy path); [done|]. by rewrite Hcfg.
Qed.

(** Writing the three settings again changes nothing. *)
Lemma configured_again (cfg : gmap string pyval) (b p h : pyval) :
  let cfg1 := <["SERVER_NAME" := h]>
                (<["FREEZER_DESTINATION" := p]> (<["FREEZER_BASE_URL" := b]> cfg)) in
  <["SERVER_NAME" := h]>
    (<["FREEZER_DESTINATION" := p]> (<["FREEZER_BASE_URL" := b]> cfg1)) = cfg1.
Proof.
  intros cfg1.
  assert (Hb : cfg1 !! "FREEZER_BASE_URL" = Some b).
  { subst cfg1. rewrite !lookup_insert_ne by done. apply lookup_insert_eq. }
  assert (Hp : cfg1 !! "FREEZER_DESTINATION" = Some p).
  { subst cfg1. rewrite lookup_insert_ne by done. apply lookup_insert_eq. }
  assert (Hh : cfg1 !! "SERVER_NAME" = Some h).
  { subst cfg1. apply lookup_insert_eq. }
  by rewrite (insert_id _ _ _ Hb), (insert_id _ _ _ Hp), (insert_id _ _ _ Hh).
Qed.

Lemma run_script_keeps_escalated (s : script) (w : World) :
  escalated w → escalated (snd (run_script E s w)).
Proof.
  revert w. induction s as [|wn k IH|e]; intros w Hesc; simpl; [done| |done].
  rewrite run_bind. destruct (is_ffw wn) eqn:Hffw.
  - by rewrite (warn_escalated_raises E _ _ Hesc Hffw).
  - pose proof (warn_keeps_escalated E _ _ Hesc Hffw) as Hesc'.
    destruct (warn E wn w) as [[[]|e] w1]; simpl in *; [|done].
    by apply IH.
Qed.

(** What a script adds to the log under the escalation: warnings it
    issued, shown, none of them of the family. *)
Lemma run_script_log_escalated (s : script) (w : World) :
  escalated w →
  ∃ new, log (snd (run_script E s w)) = log w ++ new
         ∧ Forall (λ ev, ∃ wn, ev = ShowWarning wn ∧ is_ffw wn = false
                               ∧ wn ∈ warnings_of s) new.
Proof.
  revert w. induction s as [|wn k IH|e]; intros w Hesc; simpl.
  - exists []. by rewrite app_nil_r.
  - rewrite run_bind. destruct (is_ffw wn) eqn:Hffw.
    + rewrite (warn_escalated_raises E _ _ Hesc Hffw). simpl.
      exists []. by rewrite app_nil_r.
    + pose proof (warn_keeps_escalated E _ _ Hesc Hffw) as Hesc'.
      destruct (warn_frame E wn w) as (_ & _ & _ & Hlog).
      destruct (warn E wn w) as [[[]|e] w1]; simpl in *.
      * destruct (IH w1 Hesc') as (new & Hnew & Hall).
        assert (Hall' : Forall (λ ev, ∃ wn0, ev = ShowWarning wn0 ∧ is_ffw wn0 = false
                                            ∧ wn0 ∈ wn :: warnings_of k) new).
        { eapply Forall_impl; [exact Hall|]. intros ev (wn0 & -> & Hf & Hin).
          exists wn0. repeat split; [done|]. apply elem_of_cons. by right. }
        destruct Hlog as [Hlog|[Hlog _]].
        -- exists new. by rewrite Hnew, Hlog.
        -- exists (ShowWarning wn :: new). split.
           ++ by rewrite Hnew, Hlog, <- app_assoc.
           ++ constructor; [|done]. exists wn. repeat split; [done|].
              apply elem_of_cons. by left.
      * destruct Hlog as [Hlog|[_ Hok]]; [|done].
        exists []. by rewrite app_nil_r.
  - exists []. by rewrite app_nil_r.
Qed.

Lemma freeze_log self path base_url w url host :
  resolved_base_url self base_url w = PStr url → url ≠ "" →
  urlparse_netloc E url = inl host →
  truthy (resolved_path path w) = true →
  ∃ new,
    log (snd (freeze E self path base_url w))
    = log w ++ [Stdout "Generating HTML..."; FreezerFreeze] ++ new
    ∧ Forall (λ ev, ∃ wn, ev = ShowWarning wn ∧ is_ffw wn = false
                          ∧ wn ∈ warnings_of
                                 (freezer_freeze (self_freezer self)
                                    (rendering (PStr url) (resolved_path path w) host w)))
             new.
Proof.
  intros Hurl Hne Hparse Hpath.
  rewrite (freeze_renders E _ _ _ _ _ _ Hurl Hne Hparse Hpath).
  set (wr := rendering (PStr url) (resolved_path path w) host w).
  destruct (run_script_log_escalated (freezer_freeze (self_freezer self) wr) wr)
    as (new & Hlog & Hall); [apply rendering_escalated|].
  exists new. split; [|exact Hall]. rewrite Hlog. subst wr. simpl.
  by rewrite <- !app_assoc.
Qed.

End FreezeMore.

(** X1: when [urlparse] rejects the resolved base URL, [freeze] raises its
    [ValueError] after the base URL and the destination have been written
    to the application config and before [SERVER_NAME] is: that entry, the
    warning filters and the log are as before, and the renderer is not
    entered. *)
Theorem freeze_rejected_url_stops_half_way
    (E : Env) (self : Elsa) (path base_url : pyval) (w : World)
    (url msg : string) :
  resolved_base_url self base_url w = PStr url → url ≠ "" →
  urlparse_netloc E url = inr msg →
  ∃ w', freeze E self path base_url w = (Raise (ValueError msg), w')
        ∧ app_config w'
          = <["FREEZER_DESTINATION" := resolved_path path w]>
              (<["FREEZER_BASE_URL" := PStr url]> (app_config w))
        ∧ app_config w' !! "SERVER_NAME" = app_config w !! "SERVER_NAME"
        ∧ filters w' = filters w ∧ log w' = log w.
Proof.
  intros Hurl Hne Hparse. eexists. split; [by eapply freeze_bad_url|].
  split; [reflexivity|]. simpl. by rewrite !lookup_insert_ne by done.
Qed.

Lemma freeze_rejected_url_stops_half_way_witness :
  ∃ w', freeze Scenario.strict Scenario.quiet (PStr "_build") (PStr "http://[")
          Demo.world
        = (Raise (ValueError "Invalid IPv6 URL"), w')
        ∧ app_config w'
          = <["FREEZER_DESTINATION" := resolved_path (PStr "_build") Demo.world]>
              (<["FREEZER_BASE_URL" := PStr "http://["]> (app_config Demo.world))
        ∧ app_config w' !! "SERVER_NAME" = app_config Demo.world !! "SERVER_NAME"
        ∧ filters w' = filters Demo.world ∧ log w' = log Demo.world.
Proof.
  apply (freeze_rejected_url_stops_half_way Scenario.strict Scenario.quiet
           (PStr "_build") (PStr "http://[") Demo.world "http://["
           "Invalid IPv6 URL").
  - reflexivity.
  - discriminate.
  - reflexivity.
Defined.

(** X2: [freeze] remembers.  After a call that got as far as the server
    name, a later call without arguments, on an instance that has no base
    URL of its own, settles on the same base URL and the same path, and
    leaves the application config exactly as it found it. *)
Theorem freeze_without_arguments_reuses_stored
    (E : Env) (self : Elsa) (path base_url : pyval) (w : World)
    (url host : string) :
  resolved_base_url self base_url w = PStr url → url ≠ "" →
  urlparse_netloc E url = inl host →
  truthy (self_base_url self) = false →
  let w1 := snd (freeze E self path base_url w) in
  resolved_base_url self PNone w1 = PStr url
  ∧ resolved_path PNone w1 = resolved_path path w
  ∧ app_config (snd (freeze E self PNone PNone w1)) = app_config w1.
Proof.
  intros Hurl Hne Hparse Hself w1.
  pose proof (freeze_configures E self path base_url w url host Hurl Hne Hparse)
    as Hcfg. fold w1 in Hcfg.
  assert (Hb : resolved_base_url self PNone w1 = PStr url).
  { unfold resolved_base_url. rewrite (py_or_false PNone) by done.
    rewrite py_or_false by done. rewrite Hcfg.
    rewrite !lookup_insert_ne by done. by rewrite lookup_insert_eq. }
  assert (Hp : resolved_path PNone w1 = resolved_path path w).
  { unfold resolved_path at 1. rewrite py_or_false by done. rewrite Hcfg.
    rewrite lookup_insert_ne by done. by rewrite lookup_insert_eq. }
  split; [exact Hb|]. split; [exact Hp|].
  rewrite (freeze_configures E self PNone PNone w1 url host Hb Hne Hparse).
  rewrite Hp, Hcfg. apply configured_again.
Qed.

Lemma freeze_without_arguments_reuses_stored_witness :
  let w1 := snd (freeze Demo.env Scenario.quiet (PStr "_build") (PStr Demo.url)
                   Demo.world) in
  resolved_base_url Scenario.quiet PNone w1 = PStr Demo.url
  ∧ resolved_path PNone w1 = resolved_path (PStr "_build") Demo.world
  ∧ app_config (snd (freeze Demo.env Scenario.quiet PNone PNone w1)) = app_config w1.
Proof.
  apply (freeze_without_arguments_reuses_stored Demo.env Scenario.quiet
           (PStr "_build") (PStr Demo.url) Demo.world Demo.url "example.com").
  - reflexivity.
  - discriminate.
  - reflexivity.
  - reflexivity.
Defined.

(** X3: [freeze] is repeatable.  A second call with the same arguments
    leaves the application config as the first one left it, and when the
    path is non-empty the warning filters as well: the escalation filter
    is not stacked a second time. *)
Theorem freeze_twice_is_freeze_once
    (E : Env) (self : Elsa) (path base_url : pyval) (w : World)
    (url host : string) :
  resolved_base_url self base_url w = PStr url → url ≠ "" →
  urlparse_netloc E url = inl host →
  let w1 := snd (freeze E self path base_url w) in
  let w2 := snd (freeze E self path base_url w1) in
  app_config w2 = app_config w1
  ∧ (truthy (resolved_path path w) = true →
     filters w1 = escalation :: remove_first escalation (filters w)
     ∧ filters w2 = filters w1).
Proof.
  intros Hurl Hne Hparse w1 w2.
  pose proof (freeze_configures E self path base_url w url host Hurl Hne Hparse)
    as Hcfg. fold w1 in Hcfg.
  assert (Hb : resolved_base_url self base_url w1 = PStr url).
  { apply (resolved_base_url_stable self base_url w w1 url Hurl). rewrite Hcfg.
    rewrite !lookup_insert_ne by done. by rewrite lookup_insert_eq. }
  assert (Hp : resolved_path path w1 = resolved_path path w).
  { apply resolved_path_stable. rewrite Hcfg.
    rewrite lookup_insert_ne by done. by rewrite lookup_insert_eq. }
  split.
  - subst w2.
    rewrite (freeze_configures E self path base_url w1 url host Hb Hne Hparse).
    rewrite Hp, Hcfg. apply configured_again.
  - intros Hpath.
    assert (Hf1 : filters w1 = escalation :: remove_first escalation (filters w)).
    { subst w1. rewrite (freeze_renders E _ _ _ _ _ _ Hurl Hne Hparse Hpath).
      by destruct (run_script_frame E
        (freezer_freeze (self_freezer self)
           (rendering (PStr url) (resolved_path path w) host w))
        (rendering (PStr url) (resolved_path path w) host w)) as (_ & _ & ->). }
    split; [exact Hf1|]. subst w2.
    assert (Hpath1 : truthy (resolved_path path w1) = true) by (by rewrite Hp).
    rewrite (freeze_renders E _ _ _ _ _ _ Hb Hne Hparse Hpath1).
    destruct (run_script_frame E
      (freezer_freeze (self_freezer self)
         (rendering (PStr url) (resolved_path path w1) host w1))
      (rendering (PStr url) (resolved_path path w1) host w1)) as (_ & _ & ->).
    simpl. rewrite Hf1. simpl. reflexivity.
Qed.

Lemma freeze_twice_is_freeze_once_witness :
  let w1 := snd (freeze Demo.env Scenario.quiet (PStr "_build") (PStr Demo.url)
                   Demo.world) in
  let w2 := snd (freeze Demo.env Scenario.quiet (PStr "_build") (PStr Demo.url) w1) in
  app_config w2 = app_config w1
  ∧ (truthy (resolved_path (PStr "_build") Demo.world) = true →
     filters w1 = escalation :: remove_first escalation (filters Demo.world)
     ∧ filters w2 = filters w1).
Proof.
  apply (freeze_twice_is_freeze_once Demo.env Scenario.quiet
           (PStr "_build") (PStr Demo.url) Demo.world Demo.url "example.com").
  - reflexivity.
  - discriminate.
  - reflexivity.
Defined.

(** X4: the escalation outlives the call.  Once [freeze] has entered the
    renderer, whatever comes of it, the filter for [FrozenFlaskWarning]
    stays first among the process's warning filters, and any warning of
    that family issued afterwards is raised as an exception. *)
Theorem freeze_leaves_escalation_installed
    (E : Env) (self : Elsa) (path base_url : pyval) (w : World)
    (url host : string) :
  resolved_base_url self base_url w = PStr url → url ≠ "" →
  urlparse_netloc E url = inl host →
  truthy (resolved_path path w) = true →
  let w' := snd (freeze E self path base_url w) in
  filters w' = escalation :: remove_first escalation (filters w)
  ∧ ∀ wn, is_ffw wn = true →
          warn E wn w' = (Raise (WarningRaised (w_category wn) (w_text wn)), w').
Proof.
  intros Hurl Hne Hparse Hpath w'. subst w'.
  rewrite (freeze_renders E _ _ _ _ _ _ Hurl Hne Hparse Hpath).
  set (wr := rendering (PStr url) (resolved_path path w) host w).
  set (s := freezer_freeze (self_freezer self) wr).
  split.
  - by destruct (run_script_frame E s wr) as (_ & _ & ->).
  - intros wn Hffw. apply warn_escalated_raises; [|done].
    apply run_script_keeps_escalated, rendering_escalated.
Qed.

Lemma freeze_leaves_escalation_installed_witness :
  let w' := snd (freeze Demo.env Scenario.quiet (PStr "_build") (PStr Demo.url)
                   Demo.world) in
  filters w' = escalation :: remove_first escalation (filters Demo.world)
  ∧ ∀ wn, is_ffw wn = true →
          warn Demo.env wn w'
          = (Raise (WarningRaised (w_category wn) (w_text wn)), w').
Proof.
  apply (freeze_leaves_escalation_installed Demo.env Scenario.quiet
           (PStr "_build") (PStr Demo.url) Demo.world Demo.url "example.com").
  - reflexivity.
  - discriminate.
  - reflexivity.
  - reflexivity.
Defined.

(** X5: once the configuration is complete, [freeze] prints its one line,
    enters the renderer, and after that the log only gains warnings the
    renderer issued that are not of the [FrozenFlaskWarning] family. *)
Theorem freeze_announces_then_renders
    (E : Env) (self : Elsa) (path base_url : pyval) (w : World)
    (url host : string) :
  resolved_base_url self base_url w = PStr url → url ≠ "" →
  urlparse_netloc E url = inl host →
  truthy (resolved_path path w) = true →
  let s := freezer_freeze (self_freezer self)
             (rendering (PStr url) (resolved_path path w) host w) in
  ∃ new,
    log (snd (freeze E self path base_url w))
    = log w ++ [Stdout "Generating HTML..."; FreezerFreeze] ++ new
    ∧ Forall (λ ev, ∃ wn, ev = ShowWarning wn ∧ is_ffw wn = false
                          ∧ wn ∈ warnings_of s) new.
Proof.
  intros Hurl Hne Hparse Hpath s. by apply freeze_log.
Qed.

Lemma freeze_announces_then_renders_witness :
  ∃ new,
    log (snd (freeze Demo.env Scenario.quiet (PStr "_build") (PStr Demo.url)
                Demo.world))
    = log Demo.world ++ [Stdout "Generating HTML..."; FreezerFreeze] ++ new
    ∧ Forall (λ ev, ∃ wn, ev = ShowWarning wn ∧ is_ffw wn = false
                          ∧ wn ∈ warnings_of Done) new.
Proof.
  apply (freeze_announces_then_renders Demo.env Scenario.quiet
           (PStr "_build") (PStr Demo.url) Demo.world Demo.url "example.com").
  - reflexivity.
  - discriminate.
  - reflexivity.
  - reflexivity.
Defined.

(** * Further properties of the commands *)

Section CommandsMore.
Context (E : Env).

Lemma freeze_fail_exit_returns self path base_url w w1 :
  freeze E self path base_url w = (Ok (), w1) →
  freeze_fail_exit E self path base_url w = (Ok (), w1).
Proof. intros H. unfold freeze_fail_exit, try_except. by rewrite H. Qed.

Lemma freeze_fail_exit_catches self path base_url w w1 c text :
  freeze E self path base_url w = (Raise (WarningRaised c text), w1) →
  issubclass c FrozenFlaskWarning = true →
  freeze_fail_exit E self path base_url w
  = (Raise (SystemExit 1), set_log (λ l, l ++ [Stderr ("Error: " +:+ text)]) w1).
Proof.
  intros H Hsub. unfold freeze_fail_exit, try_except. rewrite H, Hsub.
  unfold eprint. step. reflexivity.
Qed.


(** What [freeze_fail_exit] adds to what [freeze] did: at most a line on
    the error stream. *)
Lemma freeze_fail_exit_after_freeze self path base_url w :
  app_config (snd (freeze_fail_exit E self path base_url w))
  = app_config (snd (freeze E self path base_url w))
  ∧ ∃ new, log (snd (freeze_fail_exit E self path base_url w))
           = log (snd (freeze E self path base_url w)) ++ new
           ∧ Forall (λ ev, ∃ s, ev = Stderr s) new.
Proof.
  unfold freeze_fail_exit, try_except.
  destruct (freeze E self path base_url w) as [[[]|e] w1]; simpl.
  - split; [done|]. exists []. by rewrite app_nil_r.
  - destruct e; simpl; try (split; [done|]; exists []; by rewrite app_nil_r).
    destruct (issubclass c FrozenFlaskWarning); simpl.
    + split; [done|]. eexists [_]. split; [reflexivity|]. repeat constructor.
      by eexists.
    + split; [done|]. exists []. by rewrite app_nil_r.
Qed.

Lemma run_script_log (s : script) (w : World) :
  ∃ new, log (snd (run_script E s w)) = log w ++ new
         ∧ Forall (λ ev, ∃ wn, ev = ShowWarning wn) new.
Proof.
  revert w. induction s as [|wn k IH|e]; intros w; simpl.
  - exists []. by rewrite app_nil_r.
  - rewrite run_bind. destruct (warn_frame E wn w) as (_ & _ & _ & Hlog).
    destruct (warn E wn w) as [[[]|e] w1]; simpl in *.
    + destruct (IH w1) as (new & Hnew & Hall).
      destruct Hlog as [Hlog|[Hlog _]].
      * exists new. by rewrite Hnew, Hlog.
      * exists (ShowWarning wn :: new). split.
        -- by rewrite Hnew, Hlog, <- app_assoc.
        -- constructor; [by eexists|done].
    + destruct Hlog as [Hlog|[_ Hok]]; [|done].
      exists []. by rewrite app_nil_r.
  - exists []. by rewrite app_nil_r.
Qed.

(** A call into a collaborator is logged first; the application config is
    not its to change. *)
Lemma call_extends (ev : event) (behaviour : World → script) (w : World) :
  app_config (snd (call E ev behaviour w)) = app_config w
  ∧ ∃ new, log (snd (call E ev behaviour w)) = log w ++ ev :: new
           ∧ Forall (λ ev, ∃ wn, ev = ShowWarning wn) new.
Proof.
  unfold call. step. cbv beta delta [id].
  set (w1 := set_log (λ l, l ++ [ev]) w).
  destruct (run_script_frame E (behaviour w1) w1) as (-> & _).
  destruct (run_script_log (behaviour w1) w1) as (new & -> & Hall).
  split; [done|]. exists new. split; [|done]. simpl. by rewrite <- app_assoc.
Qed.

Lemma cli_freeze_run self o w :
  truthy (_base_url_option self (fo_base_url o)) = true →
  cli_freeze E self o w
  = (freeze_fail_exit E self (cli_path (fo_path o) w)
       (_base_url_option self (fo_base_url o));;
     if default false (fo_serve o)
     then serve E self (_port_option (fo_port o)) else mret ())
      (cname_injected (_cname_option (fo_cname o)) w).
Proof.
  intros Hb. unfold cli_freeze.
  rewrite (run_bind (_path_option _)), run_path_option. cbv beta iota.
  rewrite Hb. unfold _inject_cname, cname_injected, cli_path.
  destruct (_cname_option (fo_cname o)); step; reflexivity.
Qed.

(** The command line's base URL, once non-empty, is the one [freeze]
    settles on. *)
Lemma resolved_base_url_explicit self b w :
  truthy b = true → resolved_base_url self b w = b.
Proof.
  intros Hb. unfold resolved_base_url.
  rewrite (py_or_true b) by done. by rewrite py_or_true.
Qed.

Lemma os_path_join_nonempty (a b : string) : b ≠ "" → os_path_join a b ≠ "".
Proof.
  intros Hb. unfold os_path_join.
  destruct (startswith_sep b); [done|].
  destruct (String.eqb a "" || endswith_sep a); destruct a; simpl;
    first [exact Hb|discriminate].
Qed.

(** After the freeze command, the config is as [freeze] left it, and the
    log has only grown. *)
Lemma cli_freeze_after_freeze self o w :
  truthy (_base_url_option self (fo_base_url o)) = true →
  let w1 := snd (freeze E self (cli_path (fo_path o) w)
                   (_base_url_option self (fo_base_url o))
                   (cname_injected (_cname_option (fo_cname o)) w)) in
  app_config (snd (cli_freeze E self o w)) = app_config w1
  ∧ ∃ new, log (snd (cli_freeze E self o w)) = log w1 ++ new.
Proof.
  intros Hb w1. rewrite (cli_freeze_run self o w Hb), run_bind.
  destruct (freeze_fail_exit_after_freeze self (cli_path (fo_path o) w)
              (_base_url_option self (fo_base_url o))
              (cname_injected (_cname_option (fo_cname o)) w))
    as (Hcfg & new & Hlog & _). fold w1 in Hcfg, Hlog.
  destruct (freeze_fail_exit E self _ _ _) as [[[]|e] w2]; simpl in *.
  - destruct (default false (fo_serve o)); simpl.
    + unfold serve.
      destruct (call_extends (FreezerServe (_port_option (fo_port o)))
                  (freezer_serve (self_freezer self) (_port_option (fo_port o))) w2)
        as (-> & new' & -> & _).
      split; [done|]. eexists. rewrite Hlog, <- app_assoc. reflexivity.
    + split; [done|]. by exists new.
  - split; [done|]. by exists new.
Qed.

End CommandsMore.

(** X6: the freeze command run without [--path] always has a path: it
    stores the application's [_build] directory under
    [FREEZER_DESTINATION], whatever was configured there, and with a base
    URL that [urlparse] accepts it reaches the renderer. *)
Theorem cli_freeze_default_path_is_build_directory
    (E : Env) (self : Elsa) (o : freeze_opts) (w : World) (url host : string) :
  fo_path o = None →
  _base_url_option self (fo_base_url o) = PStr url → url ≠ "" →
  urlparse_netloc E url = inl host →
  let w' := snd (cli_freeze E self o w) in
  app_config w' !! "FREEZER_DESTINATION"
  = Some (PStr (os_path_join (app_root_path w) "_build"))
  ∧ FreezerFreeze ∈ log w'.
Proof.
  intros Hpath Hb Hne Hparse w'.
  assert (Htb : truthy (_base_url_option self (fo_base_url o)) = true).
  { rewrite Hb. by apply truthy_str. }
  destruct (cli_freeze_after_freeze E self o w Htb) as (Hcfg & new & Hlog).
  fold w' in Hcfg, Hlog. rewrite Hcfg, Hlog. clear Hcfg Hlog.
  set (w0 := cname_injected (_cname_option (fo_cname o)) w).
  assert (Hroot : app_root_path w0 = app_root_path w).
  { subst w0. unfold cname_injected. by destruct (_cname_option _). }
  assert (Hcli : cli_path (fo_path o) w = PStr (os_path_join (app_root_path w) "_build")).
  { unfold cli_path. by rewrite Hpath. }
  assert (Htp : truthy (cli_path (fo_path o) w) = true).
  { rewrite Hcli. apply truthy_str, os_path_join_nonempty. discriminate. }
  assert (Hrb : resolved_base_url self (_base_url_option self (fo_base_url o)) w0
                = PStr url).
  { rewrite resolved_base_url_explicit by done. exact Hb. }
  assert (Hrp : resolved_path (cli_path (fo_path o) w) w0 = cli_path (fo_path o) w).
  { unfold resolved_path. by rewrite py_or_true. }
  split.
  - rewrite (freeze_configures E self _ _ w0 url host Hrb Hne Hparse).
    rewrite lookup_insert_ne by done. rewrite lookup_insert_eq.
    by rewrite Hrp, Hcli.
  - assert (Htp' : truthy (resolved_path (cli_path (fo_path o) w) w0) = true)
      by (by rewrite Hrp).
    destruct (freeze_log E self _ _ w0 url host Hrb Hne Hparse Htp')
      as (new' & -> & _).
    rewrite !elem_of_app. left. right. left. apply elem_of_cons. right.
    apply elem_of_cons. by left.
Qed.

Lemma cli_freeze_default_path_is_build_directory_witness :
  let w' := snd (cli_freeze Demo.env Scenario.quiet Scenario.freeze_line
                   (set_config (insert "FREEZER_DESTINATION" (PStr "/elsewhere"))
                      Demo.world)) in
  app_config w' !! "FREEZER_DESTINATION" = Some (PStr "/srv/site/_build")
  ∧ FreezerFreeze ∈ log w'.
Proof.
  apply (cli_freeze_default_path_is_build_directory Demo.env Scenario.quiet
           Scenario.freeze_line
           (set_config (insert "FREEZER_DESTINATION" (PStr "/elsewhere")) Demo.world)
           Demo.url "example.com").
  - reflexivity.
  - reflexivity.
  - discriminate.
  - reflexivity.
Defined.

Section CommandOutcomes.
Context (E : Env).

Lemma command_propagates self argv w w1 e :
  match argv with
  | Serve o => cli_serve E self o
  | Freeze o => cli_freeze E self o
  | Deploy o => cli_deploy E self o
  end w = (Raise e, w1) →
  (∀ msg, e ≠ UsageError msg) →
  command E self argv w = (Raise e, w1).
Proof.
  intros Hbody He. unfold command, try_except. rewrite run_bind, Hbody.
  destruct e; try reflexivity. by destruct (He msg).
Qed.

Lemma command_returns self argv w w1 :
  match argv with
  | Serve o => cli_serve E self o
  | Freeze o => cli_freeze E self o
  | Deploy o => cli_deploy E self o
  end w = (Ok (), w1) →
  command E self argv w = (Raise (SystemExit 0), w1).
Proof.
  intros Hbody. unfold command, try_except. by rewrite run_bind, Hbody.
Qed.

Lemma cname_injected_config (cname : bool) (w : World) :
  app_config (cname_injected cname w) = app_config w
  ∧ log (cname_injected cname w) = log w
  ∧ filters (cname_injected cname w) = filters w
  ∧ app_root_path (cname_injected cname w) = app_root_path w.
Proof. by destruct cname. Qed.

End CommandOutcomes.



(** X8: a broken link ends the freeze command before it serves anything.
    When [freeze] raises a warning of the [FrozenFlaskWarning] family, the
    command, [--serve] or not, prints the error and exits with status 1
    in the world [freeze] left: the freezer's server is never started. *)
Theorem cli_freeze_broken_link_never_serves
    (E : Env) (self : Elsa) (o : freeze_opts) (w w1 : World)
    (c : category) (text : string) :
  truthy (_base_url_option self (fo_base_url o)) = true →
  freeze E self (cli_path (fo_path o) w) (_base_url_option self (fo_base_url o))
    (cname_injected (_cname_option (fo_cname o)) w)
  = (Raise (WarningRaised c text), w1) →
  issubclass c FrozenFlaskWarning = true →
  command E self (Freeze o) w
  = (Raise (SystemExit 1), set_log (λ l, l ++ [Stderr ("Error: " +:+ text)]) w1)
  ∧ (∀ port, FreezerServe port ∈ log (snd (command E self (Freeze o) w)) →
             FreezerServe port ∈ log w1).
Proof.
  intros Htb Hfreeze Hsub.
  assert (Hbody : cli_freeze E self o w
            = (Raise (SystemExit 1),
               set_log (λ l, l ++ [Stderr ("Error: " +:+ text)]) w1)).
  { rewrite (cli_freeze_run E self o w Htb), run_bind.
    by rewrite (freeze_fail_exit_catches E _ _ _ _ _ _ _ Hfreeze Hsub). }
  rewrite (command_propagates E self (Freeze o) w _ _ Hbody) by done.
  split; [reflexivity|]. intros port. simpl.
  rewrite elem_of_app, list_elem_of_singleton. intros [?|?]; [done|discriminate].
Qed.

Lemma cli_freeze_broken_link_never_serves_witness :
  command Demo.env Demo.elsa
    (Freeze {| fo_path := None; fo_base_url := Some Demo.url;
               fo_serve := Some true; fo_port := None; fo_cname := Some false |})
    Demo.world
  = (Raise (SystemExit 1),
     set_log (λ l, l ++ [Stderr "Error: Nothing frozen for endpoints missing"])
       (rendering (PStr Demo.url) (PStr "/srv/site/_build") "example.com" Demo.world)).
Proof.
  apply (cli_freeze_broken_link_never_serves Demo.env Demo.elsa
           {| fo_path := None; fo_base_url := Some Demo.url;
              fo_serve := Some true; fo_port := None; fo_cname := Some false |}
           Demo.world
           (rendering (PStr Demo.url) (PStr "/srv/site/_build") "example.com"
              Demo.world)
           NotFoundWarning "Nothing frozen for endpoints missing").
  - reflexivity.
  - reflexivity.
  - reflexivity.
Defined.

(** X9: when [freeze] returns, the freeze command without [--serve] ends
    with exit status 0 in the world [freeze] left; with [--serve] the next
    thing that happens is the freezer's [serve] on the given port, 8003
    when none is given. *)
Theorem cli_freeze_success_then_serve
    (E : Env) (self : Elsa) (o : freeze_opts) (w w1 : World) :
  truthy (_base_url_option self (fo_base_url o)) = true →
  freeze E self (cli_path (fo_path o) w) (_base_url_option self (fo_base_url o))
    (cname_injected (_cname_option (fo_cname o)) w)
  = (Ok (), w1) →
  (default false (fo_serve o) = false →
   command E self (Freeze o) w = (Raise (SystemExit 0), w1))
  ∧ (fo_serve o = Some true →
     ∃ new, log (snd (command E self (Freeze o) w))
            = log w1 ++ FreezerServe (default 8003%Z (fo_port o)) :: new).
Proof.
  intros Htb Hfreeze.
  pose proof (freeze_fail_exit_returns E _ _ _ _ _ Hfreeze) as Hexit.
  split.
  - intros Hserve. apply command_returns.
    rewrite (cli_freeze_run E self o w Htb), run_bind, Hexit, Hserve.
    reflexivity.
  - intros Hserve.
    assert (Hbody : cli_freeze E self o w
              = serve E self (default 8003%Z (fo_port o)) w1).
    { rewrite (cli_freeze_run E self o w Htb), run_bind, Hexit, Hserve.
      reflexivity. }
    destruct (call_extends E (FreezerServe (default 8003%Z (fo_port o)))
                (freezer_serve (self_freezer self) (default 8003%Z (fo_port o))) w1)
      as (_ & new & Hlog & _).
    unfold command, try_except. rewrite run_bind, Hbody.
    unfold serve in *.
    destruct (call E _ _ w1) as [[[]|e] w2]; simpl in *.
    + by exists new.
    + destruct e; simpl; try (by exists new).
      exists (new ++ [UsageShown msg]). rewrite Hlog.
      by rewrite <- app_assoc.
Qed.

Lemma cli_freeze_success_then_serve_witness :
  command Demo.env Scenario.quiet (Freeze Scenario.freeze_line) Demo.world
  = (Raise (SystemExit 0),
     rendering (PStr Demo.url) (PStr "/srv/site/_build") "example.com"
       (cname_injected true Demo.world)).
Proof.
  destruct (cli_freeze_success_then_serve Demo.env Scenario.quiet
              Scenario.freeze_line Demo.world
              (rendering (PStr Demo.url) (PStr "/srv/site/_build") "example.com"
                 (cname_injected true Demo.world))) as [Hquiet _].
  - reflexivity.
  - reflexivity.
  - apply Hquiet. reflexivity.
Defined.

(** * Further properties of deploying and serving *)

Section DeployMore.
Context (E : Env).

(** The publisher is logged with its arguments first, adds only events
    of its own, leaves the application alone and raises no usage error. *)
Lemma deploy__runs (path remote : pyval) (push show_err : bool) (w : World) :
  app_config (snd (deploy_ E path remote push show_err w)) = app_config w
  ∧ app_routes (snd (deploy_ E path remote push show_err w)) = app_routes w
  ∧ (∀ msg, fst (deploy_ E path remote push show_err w) ≠ Raise (UsageError msg))
  ∧ ∃ new, log (snd (deploy_ E path remote push show_err w))
           = log w ++ CallDeploy path remote push show_err :: new
           ∧ Forall (λ ev, publisher_event ev = true) new.
Proof.
  unfold deploy_. step.
  destruct (tree_valid E path); cbv beta iota delta [negb]; step;
    [destruct push; step;
       [destruct (git_push E remote) as [diag|]; step;
          [destruct show_err; step|]|]|];
    (repeat split; [done..|]); simpl; rewrite <- ?app_assoc; simpl;
    eexists; (split; [reflexivity|]); by repeat constructor.
Qed.

Lemma cli_deploy_given_push self o push w :
  do_push o = Some push →
  cli_deploy E self o w
  = ((if default true (do_freeze o)
      then (if _cname_option (do_cname o) then _inject_cname else mret ());;
           if negb (truthy (_base_url_option self (do_base_url o)))
           then raise (UsageError "No base URL provided, use --base-url")
           else freeze_fail_exit E self (cli_path (do_path o) w)
                  (_base_url_option self (do_base_url o))
      else mret ());;
     deploy_ E (cli_path (do_path o) w)
       (PStr (default DEFAULT_REMOTE (do_remote o))) push
       (do_show_git_push_stderr o)) w.
Proof.
  intros Hpush. unfold cli_deploy. rewrite Hpush.
  rewrite (run_bind (_path_option _)), run_path_option. cbv beta iota.
  reflexivity.
Qed.

Lemma cli_deploy_run self o w :
  default true (do_freeze o) = true →
  truthy (_base_url_option self (do_base_url o)) = true →
  cli_deploy E self o w
  = (freeze_fail_exit E self (cli_path (do_path o) w)
       (_base_url_option self (do_base_url o));;
     deploy_ E (cli_path (do_path o) w)
       (PStr (default DEFAULT_REMOTE (do_remote o)))
       (default true (do_push o)) (do_show_git_push_stderr o))
      (deploy_start o w).
Proof.
  intros Hfreeze Hb. unfold deploy_start.
  destruct (do_push o) as [push|] eqn:Hpush.
  - rewrite (cli_deploy_given_push self o push w Hpush), Hfreeze, Hb.
    unfold _inject_cname, cname_injected.
    destruct (_cname_option (do_cname o)); step; reflexivity.
  - rewrite (cli_deploy_unspecified_push E self o w Hpush).
    rewrite (cli_deploy_given_push self (with_push true o) true (deprecated w) eq_refl).
    simpl do_freeze. simpl do_base_url. simpl do_cname. rewrite Hfreeze, Hb.
    unfold _inject_cname, cname_injected.
    destruct (_cname_option (do_cname o)); step; reflexivity.
Qed.

Lemma deploy_start_log o w ev :
  ev ∈ log (deploy_start o w) → ev ∈ log w ∨ ev = ShowWarning deprecation.
Proof.
  unfold deploy_start.
  destruct (cname_injected_config (_cname_option (do_cname o))
              (match do_push o with None => deprecated w | Some _ => w end))
    as (_ & -> & _).
  destruct (do_push o); [by left|]. simpl.
  rewrite elem_of_app, list_elem_of_singleton. tauto.
Qed.

End DeployMore.

(** X10: the deploy command never publishes after a failed freeze.  With
    freezing enabled and a base URL, when [freeze_fail_exit] raises, the
    command ends right there with that exception, and the log holds no
    call of the publisher, no commit and no push that was not there
    before. *)
Theorem cli_deploy_failed_freeze_never_publishes
    (E : Env) (self : Elsa) (o : deploy_opts) (w : World) (e : exn) :
  default true (do_freeze o) = true →
  truthy (_base_url_option self (do_base_url o)) = true →
  fst (freeze_fail_exit E self (cli_path (do_path o) w)
         (_base_url_option self (do_base_url o)) (deploy_start o w))
  = Raise e →
  cli_deploy E self o w
  = (Raise e,
     snd (freeze_fail_exit E self (cli_path (do_path o) w)
            (_base_url_option self (do_base_url o)) (deploy_start o w)))
  ∧ ∀ ev, publisher_event ev = true →
          ev ∈ log (snd (cli_deploy E self o w)) → ev ∈ log w.
Proof.
  intros Hfreeze Hb Hraise.
  assert (Hrun : cli_deploy E self o w
            = (Raise e,
               snd (freeze_fail_exit E self (cli_path (do_path o) w)
                      (_base_url_option self (do_base_url o)) (deploy_start o w)))).
  { rewrite (cli_deploy_run E self o w Hfreeze Hb), run_bind.
    destruct (freeze_fail_exit E self _ _ _) as [[[]|e'] w1]; simpl in *;
      congruence. }
  split; [exact Hrun|]. intros ev Hev. rewrite Hrun. simpl.
  assert (Hquiet : hoare (λ _, True) (λ ev, publisher_event ev = false)
            (freeze_fail_exit E self (cli_path (do_path o) w)
               (_base_url_option self (do_base_url o)))).
  { by apply hoare_freeze_fail_exit. }
  destruct (Hquiet (deploy_start o w) Logic.I) as [_ Hlog].
  intros Hin. destruct (Hlog ev Hin) as [Hold|Hnew]; [|congruence].
  destruct (deploy_start_log o w ev Hold) as [?| ->]; [done|discriminate].
Qed.

Lemma cli_deploy_failed_freeze_never_publishes_witness :
  cli_deploy Demo.env Demo.elsa Scenario.deploy_line Demo.world
  = (Raise (SystemExit 1),
     set_log (λ l, l ++ [Stderr "Error: Nothing frozen for endpoints missing"])
       (rendering (PStr Demo.url) (PStr "/srv/site/_build") "example.com"
          (cname_injected true Demo.world))).
Proof.
  apply (cli_deploy_failed_freeze_never_publishes Demo.env Demo.elsa
           Scenario.deploy_line Demo.world (SystemExit 1)).
  - reflexivity.
  - reflexivity.
  - reflexivity.
Defined.

(** X11: [deploy] publishes what [freeze] froze.  After a [freeze] that got
    as far as the server name, [deploy] called with nothing but defaults
    hands the publisher the path [freeze] settled on, the remote
    [origin], and neither [push] nor [show_err]. *)
Theorem deploy_defaults_publish_frozen_destination
    (E : Env) (self : Elsa) (path base_url : pyval) (w : World)
    (url host : string) :
  resolved_base_url self base_url w = PStr url → url ≠ "" →
  urlparse_netloc E url = inl host →
  let w1 := snd (freeze E self path base_url w) in
  ∃ new, log (snd (deploy E self PNone PNone None None w1))
         = log w1 ++ CallDeploy (resolved_path path w) (PStr "origin") false false
                     :: new.
Proof.
  intros Hurl Hne Hparse w1.
  pose proof (freeze_configures E self path base_url w url host Hurl Hne Hparse)
    as Hcfg. fold w1 in Hcfg.
  unfold deploy. step. rewrite Hcfg.
  rewrite lookup_insert_ne by done. rewrite lookup_insert_eq.
  rewrite !(py_or_false PNone) by done. simpl default.
  destruct (deploy__runs E (resolved_path path w) (PStr DEFAULT_REMOTE) false false w1)
    as (_ & _ & _ & new & Hlog & _).
  by exists new.
Qed.

Lemma deploy_defaults_publish_frozen_destination_witness :
  let w1 := snd (freeze Demo.env Scenario.quiet (PStr "_build") (PStr Demo.url)
                   Demo.world) in
  ∃ new, log (snd (deploy Demo.env Scenario.quiet PNone PNone None None w1))
         = log w1 ++ CallDeploy (resolved_path (PStr "_build") Demo.world)
                       (PStr "origin") false false :: new.
Proof.
  apply (deploy_defaults_publish_frozen_destination Demo.env Scenario.quiet
           (PStr "_build") (PStr Demo.url) Demo.world Demo.url "example.com").
  - reflexivity.
  - discriminate.
  - reflexivity.
Defined.

(** X14: with [--no-freeze] the deploy command needs no base URL and does
    not touch the application: its config and routes are as before, it
    raises no usage error, and all it adds to the log is its deprecation
    warning, when due, and the publisher's events. *)
Theorem cli_deploy_no_freeze_only_publishes
    (E : Env) (self : Elsa) (o : deploy_opts) (w : World) :
  do_freeze o = Some false →
  let w' := snd (cli_deploy E self o w) in
  app_config w' = app_config w
  ∧ app_routes w' = app_routes w
  ∧ (∀ msg, fst (cli_deploy E self o w) ≠ Raise (UsageError msg))
  ∧ ∃ new, log w' = log w
                    ++ match do_push o with
                       | Some _ => []
                       | None => [ShowWarning deprecation]
                       end
                    ++ CallDeploy (cli_path (do_path o) w)
                         (PStr (default DEFAULT_REMOTE (do_remote o)))
                         (default true (do_push o)) (do_show_git_push_stderr o)
                       :: new
           ∧ Forall (λ ev, publisher_event ev = true) new.
Proof.
  intros Hfreeze w'. subst w'.
  destruct (do_push o) as [push|] eqn:Hpush.
  - rewrite (cli_deploy_given_push E self o push w Hpush), Hfreeze.
    simpl default. rewrite run_bind, run_ret. cbv beta iota.
    destruct (deploy__runs E (cli_path (do_path o) w)
                (PStr (default DEFAULT_REMOTE (do_remote o))) push
                (do_show_git_push_stderr o) w) as (Hc & Hr & Hu & new & Hlog & Hall).
    repeat split; try done. by exists new.
  - assert (Hrun : cli_deploy E self o w
              = deploy_ E (cli_path (do_path o) w)
                  (PStr (default DEFAULT_REMOTE (do_remote o))) true
                  (do_show_git_push_stderr o) (deprecated w)).
    { rewrite (cli_deploy_unspecified_push E self o w Hpush).
      rewrite (cli_deploy_given_push E self (with_push true o) true
                 (deprecated w) eq_refl).
      simpl do_freeze. rewrite Hfreeze. reflexivity. }
    rewrite Hrun.
    destruct (deploy__runs E (cli_path (do_path o) w)
                (PStr (default DEFAULT_REMOTE (do_remote o))) true
                (do_show_git_push_stderr o) (deprecated w))
      as (Hc & Hr & Hu & new & Hlog & Hall).
    repeat split; try done. exists new. split; [|done].
    rewrite Hlog. simpl. by rewrite <- app_assoc.
Qed.

Lemma cli_deploy_no_freeze_only_publishes_witness :
  app_config (snd (cli_deploy Demo.env Demo.elsa
                     {| do_path := None; do_base_url := None; do_remote := None;
                        do_push := Some false; do_freeze := Some false;
                        do_show_git_push_stderr := false; do_cname := None |}
                     Demo.world))
  = app_config Demo.world.
Proof.
  apply (cli_deploy_no_freeze_only_publishes Demo.env Demo.elsa
           {| do_path := None; do_base_url := None; do_remote := None;
              do_push := Some false; do_freeze := Some false;
              do_show_git_push_stderr := false; do_cname := None |}
           Demo.world).
  reflexivity.
Defined.



(** X15: the help of [--base-url] says the option is mandatory exactly when
    the instance has no base URL, and only then does it differ between the
    freeze command and the deploy command (which adds that it is needed
    with [--freeze]); with a base URL it names that URL as the default. *)
Theorem base_url_help_depends_on_instance (self : Elsa) :
  (_base_url_help self true = _base_url_help self false
   ↔ truthy (self_base_url self) = true)
  ∧ (∀ url, self_base_url self = PStr url → url ≠ "" →
       ∀ freeze, _base_url_help self freeze
                 = "URL for the application, used for external links, default "
                   +:+ url)
  ∧ (truthy (self_base_url self) = false →
     _base_url_help self false
     = "URL for the application, used for external links, mandatory"
     ∧ _base_url_help self true
       = "URL for the application, used for external links, mandatory with --freeze").
Proof.
  unfold _base_url_help. split; [split|split].
  - destruct (truthy (self_base_url self)); [done|]. simpl. discriminate.
  - by intros ->.
  - intros url Hurl Hne freeze. by rewrite Hurl, (truthy_str _ Hne).
  - intros Hself. by rewrite Hself.
Qed.

Section PublishMore.
Context (E : Env).

Lemma cli_deploy_publishes self o w w1 :
  default true (do_freeze o) = true →
  truthy (_base_url_option self (do_base_url o)) = true →
  freeze_fail_exit E self (cli_path (do_path o) w)
    (_base_url_option self (do_base_url o)) (deploy_start o w) = (Ok (), w1) →
  app_config (snd (cli_deploy E self o w)) = app_config w1
  ∧ ∃ new, log (snd (cli_deploy E self o w))
           = log w1 ++ CallDeploy (cli_path (do_path o) w)
                         (PStr (default DEFAULT_REMOTE (do_remote o)))
                         (default true (do_push o)) (do_show_git_push_stderr o)
                       :: new
           ∧ Forall (λ ev, publisher_event ev = true) new.
Proof.
  intros Hfreeze Hb Hexit.
  rewrite (cli_deploy_run E self o w Hfreeze Hb), run_bind, Hexit.
  destruct (deploy__runs E (cli_path (do_path o) w)
              (PStr (default DEFAULT_REMOTE (do_remote o)))
              (default true (do_push o)) (do_show_git_push_stderr o) w1)
    as (Hc & _ & _ & Hlog).
  by split.
Qed.


End PublishMore.

(** X16: when the freeze inside the deploy command goes through, the next
    thing the command does is call the publisher, with the command line's
    path, the given remote ([origin] when none is given), [push] as given
    (set when left out) and the stderr flag; the application config is as
    the freeze left it. *)
Theorem cli_deploy_publishes_after_freeze
    (E : Env) (self : Elsa) (o : deploy_opts) (w w1 : World) :
  default true (do_freeze o) = true →
  truthy (_base_url_option self (do_base_url o)) = true →
  freeze_fail_exit E self (cli_path (do_path o) w)
    (_base_url_option self (do_base_url o)) (deploy_start o w) = (Ok (), w1) →
  app_config (snd (cli_deploy E self o w)) = app_config w1
  ∧ ∃ new, log (snd (cli_deploy E self o w))
           = log w1 ++ CallDeploy (cli_path (do_path o) w)
                         (PStr (default "origin" (do_remote o)))
                         (default true (do_push o)) (do_show_git_push_stderr o)
                       :: new
           ∧ Forall (λ ev, publisher_event ev = true) new.
Proof. apply cli_deploy_publishes. Qed.

Lemma cli_deploy_publishes_after_freeze_witness :
  ∃ new, log (snd (cli_deploy Scenario.strict Scenario.quiet Scenario.deploy_line
                     Demo.world))
         = log (rendering (PStr Demo.url) (PStr "/srv/site/_build") "example.com"
                  (cname_injected true Demo.world))
           ++ CallDeploy (PStr "/srv/site/_build") (PStr "origin") true false :: new
         ∧ Forall (λ ev, publisher_event ev = true) new.
Proof.
  apply (cli_deploy_publishes_after_freeze Scenario.strict Scenario.quiet
           Scenario.deploy_line Demo.world
           (rendering (PStr Demo.url) (PStr "/srv/site/_build") "example.com"
              (cname_injected true Demo.world))).
  - reflexivity.
  - reflexivity.
  - reflexivity.
Defined.



(** * The path error and a base URL that [urlparse] rejects *)

(** C9, as worded, fails: the base URL [http://[] is non-empty and no path
    is resolved, yet [freeze] does not raise the path error.  [urlparse]
    rejects the URL first, so the call ends with that [ValueError], and
    [SERVER_NAME] has not been written. *)
Lemma freeze_missing_path_leaves_config_counterexample :
  resolved_base_url Scenario.quiet (PStr "http://[") Demo.world = PStr "http://["
  ∧ truthy (resolved_base_url Scenario.quiet (PStr "http://[") Demo.world) = true
  ∧ truthy (resolved_path PNone Demo.world) = false
  ∧ fst (freeze Scenario.strict Scenario.quiet PNone (PStr "http://[") Demo.world)
    = Raise (ValueError "Invalid IPv6 URL")
  ∧ fst (freeze Scenario.strict Scenario.quiet PNone (PStr "http://[") Demo.world)
    ≠ Raise (ValueError "No path provided")
  ∧ app_config (snd (freeze Scenario.strict Scenario.quiet PNone (PStr "http://[")
                       Demo.world)) !! "SERVER_NAME" = None.
Proof.
  repeat split; try reflexivity. discriminate.
Qed.

(** * The push tool's diagnostics *)

Section PushDiagnostics.
Context (E : Env).

(** The publisher when the push is rejected: the call, the commit, the
    push tool's stderr when [show_err] is set, and the failure. *)
Lemma deploy__push_rejected (path remote : pyval) (show_err : bool)
    (diag : string) (w : World) :
  tree_valid E path = true → git_push E remote = Some diag →
  fst (deploy_ E path remote true show_err w) = Raise (DeployError PushRejected)
  ∧ log (snd (deploy_ E path remote true show_err w))
    = log w ++ [CallDeploy path remote true show_err; GitCommit path]
            ++ (if show_err then [PushStderr diag] else []).
Proof.
  intros Htree Hgit. unfold deploy_. step. rewrite Htree.
  cbv beta iota delta [negb]. step. rewrite Hgit.
  destruct show_err; step; simpl; rewrite <- ?app_assoc; simpl;
    by rewrite ?app_nil_r.
Qed.

(** The deploy command with [--no-freeze] is the publisher, run after the
    deprecation warning when one is due. *)
Lemma cli_deploy_no_freeze_run self o w :
  do_freeze o = Some false →
  cli_deploy E self o w
  = deploy_ E (cli_path (do_path o) w)
      (PStr (default DEFAULT_REMOTE (do_remote o)))
      (default true (do_push o)) (do_show_git_push_stderr o)
      (match do_push o with
       | Some _ => w
       | None => deprecated w
       end).
Proof.
  intros Hfreeze. destruct (do_push o) as [push|] eqn:Hpush.
  - rewrite (cli_deploy_given_push E self o push w Hpush), Hfreeze.
    reflexivity.
  - rewrite (cli_deploy_unspecified_push E self o w Hpush).
    rewrite (cli_deploy_given_push E self (with_push true o) true
               (deprecated w) eq_refl).
    simpl do_freeze. rewrite Hfreeze. reflexivity.
Qed.

End PushDiagnostics.

(** C7: [show_err] decides whether the push tool's stderr is surfaced, and
    it is false unless asked for.  The deploy command hands
    [--show-git-push-stderr] to the publisher as [show_err], false when the
    flag is not given, and the [deploy] method hands on its [show_err],
    false when left out: every publisher call they make carries that
    value, and the push tool's stderr reaches the error stream only when
    it is set.  Whenever the command reaches the publisher, with
    [--no-freeze] or after a freeze that went through, the call carries
    the flag; and when the push is then rejected, the command and the
    method alike log the call, the commit and, exactly when the flag is
    set, the push tool's stderr. *)
Theorem show_err_controls_push_stderr (E : Env) (self : Elsa) (w : World) :
  (∀ o ev, ev ∈ log (snd (cli_deploy E self o w)) →
     ev ∈ log w
     ∨ ((∀ p r pu se, ev = CallDeploy p r pu se → se = do_show_git_push_stderr o)
        ∧ (∀ diag, ev = PushStderr diag → do_show_git_push_stderr o = true)))
  ∧ (∀ path remote push show_err ev,
       ev ∈ log (snd (deploy E self path remote push show_err w)) →
       ev ∈ log w
       ∨ ((∀ p r pu se, ev = CallDeploy p r pu se → se = default false show_err)
          ∧ (∀ diag, ev = PushStderr diag → show_err = Some true)))
  ∧ (∀ path remote show_err diag,
       tree_valid E (resolved_path path w) = true →
       git_push E (py_or remote (PStr DEFAULT_REMOTE)) = Some diag →
       fst (deploy E self path remote (Some true) show_err w)
       = Raise (DeployError PushRejected)
       ∧ log (snd (deploy E self path remote (Some true) show_err w))
         = log w
           ++ [CallDeploy (resolved_path path w) (py_or remote (PStr DEFAULT_REMOTE))
                 true (default false show_err);
               GitCommit (resolved_path path w)]
           ++ (if default false show_err then [PushStderr diag] else []))
  ∧ (∀ o, do_freeze o = Some false →
       ∃ new, log (snd (cli_deploy E self o w))
              = log w
                ++ match do_push o with
                   | Some _ => []
                   | None => [ShowWarning deprecation]
                   end
                ++ CallDeploy (cli_path (do_path o) w)
                     (PStr (default DEFAULT_REMOTE (do_remote o)))
                     (default true (do_push o)) (do_show_git_push_stderr o)
                   :: new)
  ∧ (∀ o w1,
       default true (do_freeze o) = true →
       truthy (_base_url_option self (do_base_url o)) = true →
       freeze_fail_exit E self (cli_path (do_path o) w)
         (_base_url_option self (do_base_url o)) (deploy_start o w) = (Ok (), w1) →
       ∃ new, log (snd (cli_deploy E self o w))
              = log w1
                ++ CallDeploy (cli_path (do_path o) w)
                     (PStr (default DEFAULT_REMOTE (do_remote o)))
                     (default true (do_push o)) (do_show_git_push_stderr o)
                   :: new)
  ∧ (∀ o diag,
       do_freeze o = Some false →
       tree_valid E (cli_path (do_path o) w) = true →
       default true (do_push o) = true →
       git_push E (PStr (default DEFAULT_REMOTE (do_remote o))) = Some diag →
       fst (cli_deploy E self o w) = Raise (DeployError PushRejected)
       ∧ log (snd (cli_deploy E self o w))
         = log w
           ++ match do_push o with
              | Some _ => []
              | None => [ShowWarning deprecation]
              end
           ++ [CallDeploy (cli_path (do_path o) w)
                 (PStr (default DEFAULT_REMOTE (do_remote o)))
                 true (do_show_git_push_stderr o);
               GitCommit (cli_path (do_path o) w)]
           ++ (if do_show_git_push_stderr o then [PushStderr diag] else []))
  ∧ (∀ o w1 diag,
       default true (do_freeze o) = true →
       truthy (_base_url_option self (do_base_url o)) = true →
       freeze_fail_exit E self (cli_path (do_path o) w)
         (_base_url_option self (do_base_url o)) (deploy_start o w) = (Ok (), w1) →
       tree_valid E (cli_path (do_path o) w) = true →
       default true (do_push o) = true →
       git_push E (PStr (default DEFAULT_REMOTE (do_remote o))) = Some diag →
       fst (cli_deploy E self o w) = Raise (DeployError PushRejected)
       ∧ log (snd (cli_deploy E self o w))
         = log w1
           ++ [CallDeploy (cli_path (do_path o) w)
                 (PStr (default DEFAULT_REMOTE (do_remote o)))
                 true (do_show_git_push_stderr o);
               GitCommit (cli_path (do_path o) w)]
           ++ (if do_show_git_push_stderr o then [PushStderr diag] else [])).
Proof.
  split; [|split; [|split; [|split; [|split; [|split]]]]].
  - intros o ev.
    set (P := λ ev : event,
           (∀ p r pu se, ev = CallDeploy p r pu se → se = do_show_git_push_stderr o)
           ∧ (∀ diag, ev = PushStderr diag → do_show_git_push_stderr o = true)).
    assert (HP : ∀ ev, publisher_event ev = false → P ev).
    { intros ev' Hev. split; [intros p r pu se ->|intros diag ->]; discriminate. }
    assert (Hrun : ∀ o' push, do_push o' = Some push →
              do_show_git_push_stderr o' = do_show_git_push_stderr o →
              hoare (λ _, True) P (cli_deploy E self o')).
    { intros o' push Hpush Hflag.
      apply (hoare_cli_deploy E _ P) with (push := push); try done.
      - intros p r. split; [|discriminate].
        intros p' r' pu se Hcall. injection Hcall as _ _ _ <-. done.
      - intros diag Hshow. split; [discriminate|]. intros _ _. congruence. }
    destruct (do_push o) as [push|] eqn:Hpush.
    + intros Hin. by apply (Hrun o push Hpush eq_refl w Logic.I).
    + rewrite (cli_deploy_unspecified_push E self o w Hpush). intros Hin.
      destruct (Hrun (with_push true o) true eq_refl eq_refl (deprecated w) Logic.I)
        as [_ Hlog].
      destruct (Hlog _ Hin) as [Hold|Hnew]; [|by right].
      simpl in Hold. rewrite elem_of_app, list_elem_of_singleton in Hold.
      destruct Hold as [Hold| ->]; [by left|]. right. by apply HP.
  - intros path remote push show_err ev.
    set (P := λ ev : event,
           (∀ p r pu se, ev = CallDeploy p r pu se → se = default false show_err)
           ∧ (∀ diag, ev = PushStderr diag → show_err = Some true)).
    apply (hoare_deploy E (λ _, True) P self path remote push show_err); try done.
    + intros p r. split; [|discriminate].
      intros p' r' pu se Hcall. injection Hcall as _ _ _ <-. done.
    + intros diag Hshow. split; [discriminate|]. intros _ _.
      by destruct show_err as [[]|].
  - intros path remote show_err diag Htree Hgit.
    unfold deploy. step. fold (resolved_path path w). simpl default at 1.
    by apply deploy__push_rejected.
  - intros o Hfreeze. rewrite (cli_deploy_no_freeze_run E self o w Hfreeze).
    destruct (deploy__runs E (cli_path (do_path o) w)
                (PStr (default DEFAULT_REMOTE (do_remote o)))
                (default true (do_push o)) (do_show_git_push_stderr o)
                (match do_push o with Some _ => w | None => deprecated w end))
      as (_ & _ & _ & new & Hlog & _).
    exists new. rewrite Hlog. destruct (do_push o); simpl; [done|].
    by rewrite <- app_assoc.
  - intros o w1 Hfreeze Hb Hexit.
    destruct (cli_deploy_publishes E self o w w1 Hfreeze Hb Hexit)
      as (_ & new & Hlog & _).
    by exists new.
  - intros o diag Hfreeze Htree Hpush Hgit.
    rewrite (cli_deploy_no_freeze_run E self o w Hfreeze), Hpush.
    destruct (deploy__push_rejected E (cli_path (do_path o) w)
                (PStr (default DEFAULT_REMOTE (do_remote o)))
                (do_show_git_push_stderr o) diag
                (match do_push o with Some _ => w | None => deprecated w end)
                Htree Hgit) as [Hfst Hlog].
    split; [exact Hfst|]. rewrite Hlog.
    destruct (do_push o); simpl; [done|]. by rewrite <- !app_assoc.
  - intros o w1 diag Hfreeze Hb Hexit Htree Hpush Hgit.
    rewrite (cli_deploy_run E self o w Hfreeze Hb), run_bind, Hexit, Hpush.
    by apply deploy__push_rejected.
Qed.

Lemma show_err_controls_push_stderr_witness :
  (log (snd (cli_deploy Demo.env Demo.elsa
               {| do_path := Some "_build"; do_base_url := None;
                  do_remote := None; do_push := Some true;
                  do_freeze := Some false;
                  do_show_git_push_stderr := false; do_cname := None |}
               Demo.world))
   = [CallDeploy (PStr "_build") (PStr "origin") true false;
      GitCommit (PStr "_build")]
   ∧ log (snd (cli_deploy Demo.env Demo.elsa
                 {| do_path := Some "_build"; do_base_url := None;
                    do_remote := None; do_push := Some true;
                    do_freeze := Some false;
                    do_show_git_push_stderr := true; do_cname := None |}
                 Demo.world))
     = [CallDeploy (PStr "_build") (PStr "origin") true true;
        GitCommit (PStr "_build");
        PushStderr "fatal: Authentication failed"])
  ∧ (log (snd (deploy Demo.env Demo.elsa (PStr "_build") PNone (Some true) None
                 Demo.world))
     = [CallDeploy (PStr "_build") (PStr "origin") true false;
        GitCommit (PStr "_build")]
     ∧ log (snd (deploy Demo.env Demo.elsa (PStr "_build") PNone (Some true)
                   (Some true) Demo.world))
       = [CallDeploy (PStr "_build") (PStr "origin") true true;
          GitCommit (PStr "_build");
          PushStderr "fatal: Authentication failed"]).
Proof.
  destruct (show_err_controls_push_stderr Demo.env Demo.elsa Demo.world)
    as (_ & _ & Hmethod & _ & _ & Hcommand & _).
  split; split.
  - apply (Hcommand {| do_path := Some "_build"; do_base_url := None;
                       do_remote := None; do_push := Some true;
                       do_freeze := Some false;
                       do_show_git_push_stderr := false; do_cname := None |}
             "fatal: Authentication failed"); reflexivity.
  - apply (Hcommand {| do_path := Some "_build"; do_base_url := None;
                       do_remote := None; do_push := Some true;
                       do_freeze := Some false;
                       do_show_git_push_stderr := true; do_cname := None |}
             "fatal: Authentication failed"); reflexivity.
  - apply (Hmethod (PStr "_build") PNone None "fatal: Authentication failed");
      reflexivity.
  - apply (Hmethod (PStr "_build") PNone (Some true) "fatal: Authentication failed");
      reflexivity.
Defined.

(** * The serve command *)

(** X12: all the serve command does itself comes before it hands over to
    the application's debug server.  By then the application config, the
    warning filters and the log are as they were; template auto-reload is
    on unless [TEMPLATES_AUTO_RELOAD] is configured with a false value
    other than [None], and is never switched off; the shutdown route is
    mounted and after it, unless [--no-cname] is given, the CNAME route.
    The command then is [app.run] on [0.0.0.0], on the given port (8003
    when none is given), with [debug] set, and ends as that call ends. *)
Theorem cli_serve_prepares_then_runs
    (E : Env) (self : Elsa) (o : serve_opts) (w : World) :
  ∃ w0,
    cli_serve E self o w
    = call E (AppRun "0.0.0.0" (default 8003%Z (so_port o)) true)
        (app_run E "0.0.0.0" (default 8003%Z (so_port o)) true) w0
    ∧ app_config w0 = app_config w
    ∧ filters w0 = filters w
    ∧ log w0 = log w
    ∧ app_auto_reload w0
      = (truthy (default PNone (app_config w !! "TEMPLATES_AUTO_RELOAD"))
         || is_None (default PNone (app_config w !! "TEMPLATES_AUTO_RELOAD"))
         || app_auto_reload w)
    ∧ app_routes w0
      = (app_routes w ++ [(shutdown_rule E, ShutdownView)])
        ++ (if default true (so_cname o) then [("/CNAME", CnameView)] else []).
Proof.
  unfold cli_serve, _inject_shutdown, inject_shutdown, _inject_cname. step.
  destruct (truthy _ || is_None _); step;
    destruct (so_cname o) as [[]|]; simpl; step;
    eexists; (split; [reflexivity|]); simpl; by rewrite ?app_nil_r.
Qed.
